(** * Metal1: the price aggregator (services/metalService.ts) and the
    simulated live ticker (App.tsx)

    A shallow embedding of [fetchLiveMetalPrices] with its three-tier
    fallback chain, and of the per-second ticker of [App] with its rolling
    price history.

    JavaScript numbers are IEEE 754 binary64 values; they are modelled by
    the primitive floats of the kernel ([PrimFloat.float]), whose
    operations are specified against [SpecFloat] in [FloatAxioms]. *)

From Stdlib Require Import ZArith Lia Bool List.
From Stdlib Require Import Floats.
From stdpp Require Import base option list strings gmap.

Local Open Scope float_scope.

(** A decimal literal denotes the nearest binary64 value, as it does in
    JavaScript. *)
#[local] Set Warnings "-inexact-float".

(** ** JavaScript numbers *)

Module Js.

(** [number] is the JavaScript Number type. *)
Definition number := float.

(** [isNaN] on a value that is already a number. *)
Definition isNaN (x : number) : bool := PrimFloat.is_nan x.

Definition NaN : number := PrimFloat.nan.
Definition Infinity : number := PrimFloat.infinity.

(** Strict equality [===] on two numbers. *)
Definition strict_eq (x y : number) : bool := (x =? y).

(** [Number.isFinite]: neither NaN nor an infinity. *)
Definition isFinite (x : number) : bool :=
  match PrimFloat.classify x with
  | FloatClass.NaN | PInf | NInf => false
  | _ => true
  end.

(** Values of type [any], as [response.json()] and [JSON.parse] build them. *)
#[local] Set Warnings "-register-all".
Inductive value :=
| Undefined
| Null
| Bool (b : bool)
| Num (x : number)
| Str (s : string)
| Arr (items : list value)
| Obj (props : list (string * value)).

(** The exceptions the code can meet. *)
Inductive exn :=
| UpstreamError (statusText : string)   (* thrown by fetchFromGoldApi on !response.ok *)
| TransportError                        (* a rejected fetch or generateContent *)
| SyntaxError                           (* JSON.parse, response.json() *)
| TypeError.                            (* property read on null or undefined *)

(** A computation that returns or throws. *)
Inductive result (A : Type) :=
| Ok (a : A)
| Throw (e : exn).
Arguments Ok {A} a.
Arguments Throw {A} e.

Definition bind {A B} (m : result A) (k : A -> result B) : result B :=
  match m with
  | Ok a => k a
  | Throw e => Throw e
  end.

(** [try { body } catch (e) { handler e }] *)
Definition try_catch {A} (body : result A) (handler : exn -> result A) : result A :=
  match body with
  | Ok a => Ok a
  | Throw e => handler e
  end.

#[global] Instance result_ret : MRet result := @Ok.
#[global] Instance result_bind : MBind result := fun A B k m => bind m k.

(** The relational operators on two numbers; a comparison with NaN is false. *)
Definition lt (x y : number) : bool := (x <? y).
Definition gt (x y : number) : bool := (y <? x).
Definition le (x y : number) : bool := (x <=? y).

(** The built-in functions the code calls and this development does not
    unfold: the numeric value of a string ([Number(s)]); the string an array
    or object converts to before that, or the TypeError that conversion
    throws when the value has no callable [toString], as a parsed
    [{"toString": 1}]; [parseFloat]; and [JSON.parse] ([None] when it
    throws). *)
Record runtime := {
  StringToNumber : string -> number;
  ObjectToString : value -> result string;
  parseFloat : string -> number;
  JSON_parse : string -> option value
}.

(** [Number(v)], also applied by [/] to its operands; it throws where the
    conversion of an array or object to a primitive does. *)
Definition ToNumber (rt : runtime) (v : value) : result number :=
  match v with
  | Undefined => Ok NaN
  | Null => Ok 0
  | Bool true => Ok 1
  | Bool false => Ok 0
  | Num x => Ok x
  | Str s => Ok (StringToNumber rt s)
  | Arr _ | Obj _ => bind (ObjectToString rt v) (fun s => Ok (StringToNumber rt s))
  end.

(** Truthiness, as the left operand of [||] is tested. *)
Definition truthy (v : value) : bool :=
  match v with
  | Undefined | Null => false
  | Bool b => b
  | Num x => negb (isNaN x || (x =? 0))
  | Str s => negb (String.eqb s "")
  | Arr _ | Obj _ => true
  end.

(** [a || b] on values. *)
Definition or_else (a b : value) : value := if truthy a then a else b.

(** [s || d] where [s : string | undefined]. *)
Definition text_or (s : option string) (d : string) : string :=
  match s with
  | Some t => if String.eqb t "" then d else t
  | None => d
  end.

Fixpoint own_prop (props : list (string * value)) (key : string) : value :=
  match props with
  | [] => Undefined
  | (k, v) :: rest => if String.eqb k key then v else own_prop rest key
  end.

(** [v.key] for a key that no prototype defines: reading it off [null] or
    [undefined] throws, an object yields its own property, and every other
    value yields [undefined]. *)
Definition get_prop (v : value) (key : string) : result value :=
  match v with
  | Undefined | Null => Throw TypeError
  | Obj props => Ok (own_prop props key)
  | _ => Ok Undefined
  end.

(** [await Promise.all([a, b])]: both calls have been issued; the await
    throws when either rejected (the error is only logged by the caller). *)
Definition Promise_all2 {A B} (a : result A) (b : result B) : result (A * B) :=
  match a, b with
  | Ok x, Ok y => Ok (x, y)
  | Throw e, _ => Throw e
  | _, Throw e => Throw e
  end.

End Js.

(** ** services/metalService.ts *)

Module metalService.
Import Js.

Record MetalPrices := {
  gold24k : number;      (* price per gram *)
  gold22k : number;      (* price per gram *)
  gold18k : number;      (* price per gram *)
  silver : number;       (* price per kg *)
  copper : number;       (* price per kg *)
  lastUpdated : value;   (* declared string; tier 2 copies it from parsed JSON *)
  currency : string
}.

(** What one [fetch] of the quote API comes to: the promise rejects, or it
    resolves to a response with [ok], [statusText] and the outcome of
    [response.json()]. *)
Inductive http_outcome :=
| NetworkFailure
| Response (ok : bool) (statusText : string) (json : result value).

(** The two prompts sent to [ai.models.generateContent]. *)
Inductive prompt :=
| CopperQuery      (* "... price of Copper per kg ... Return only the number." *)
| SnapshotQuery.   (* the JSON request with googleSearch, application/json *)

(** The outside world of one call of [fetchLiveMetalPrices]: the quote API
    by URL, the generative model by prompt (it resolves to a response whose
    [text] may be undefined, or rejects), and [new Date().toLocaleString()]. *)
Record world := {
  net : string -> http_outcome;
  generateContent : prompt -> result (option string);
  now : string
}.

Definition goldapi_url (symbol : string) : string :=
  ("https://www.goldapi.io/api/" ++ symbol ++ "/INR")%string.

Definition fetchFromGoldApi (w : world) (symbol : string) : result value :=
  match net w (goldapi_url symbol) with
  | NetworkFailure => Throw TransportError
  | Response ok statusText json =>
      if negb ok then Throw (UpstreamError statusText) else json
  end.

Section Service.
Context (rt : runtime).

(** Lines 171-181: the copper estimate with its own try/catch. *)
Definition copperEstimate (w : world) : result number :=
  let copperPrice := 945.25 in
  try_catch
    (copperResponse ← generateContent w CopperQuery;
     let val := parseFloat rt (text_or copperResponse "") in
     mret (if negb (isNaN val) then val else copperPrice))
    (fun e => mret copperPrice).

(** Lines 158-160 and 166-168: the plausibility gates. *)
Definition gateGold (goldPricePerGram24k : number) : number :=
  if gt goldPricePerGram24k 5000 && lt goldPricePerGram24k 12000
  then goldPricePerGram24k else 8250.50.

Definition gateSilver (silverPricePerKg : number) : number :=
  if gt silverPricePerKg 50000 && lt silverPricePerKg 150000
  then silverPricePerKg else 105000.75.

(** Lines 145-191: the body of the outer [try]. *)
Definition primaryPath (w : world) : result MetalPrices :=
  '(goldData, silverData) ←
     Promise_all2 (fetchFromGoldApi w "XAU") (fetchFromGoldApi w "XAG");
  goldPrice ← get_prop goldData "price";
  goldNumber ← ToNumber rt goldPrice;
  let goldPricePerGram24k := goldNumber / 31.1035 in
  let finalGold24k := gateGold goldPricePerGram24k in
  let goldPricePerGram22k := finalGold24k * (22 / 24) in
  let goldPricePerGram18k := finalGold24k * (18 / 24) in
  silverPrice ← get_prop silverData "price";
  silverNumber ← ToNumber rt silverPrice;
  let silverPricePerKg := (silverNumber / 31.1035) * 1000 in
  let finalSilver := gateSilver silverPricePerKg in
  copperPrice ← copperEstimate w;
  mret {| gold24k := goldPricePerGram24k;
          gold22k := goldPricePerGram22k;
          gold18k := goldPricePerGram18k;
          silver := silverPricePerKg;
          copper := copperPrice;
          lastUpdated := Str (now w);
          currency := "INR" |}.

(** Lines 217-220. *)
Definition validate (val : value) (fallback : number) : result number :=
  num ← ToNumber rt val;
  mret (if isNaN num || le num 0 then fallback else num).

(** Lines 196-230: the body of the inner [try]. *)
Definition generativeFallback (w : world) : result MetalPrices :=
  response ← generateContent w SnapshotQuery;
  let text := text_or response "{}" in
  data ← match JSON_parse rt text with
         | Some v => Ok v
         | None => Throw SyntaxError
         end;
  g24 ← get_prop data "gold24k_per_gram";
  v24 ← validate g24 8650;
  g22 ← get_prop data "gold22k_per_gram";
  v22 ← validate g22 7930;
  g18 ← get_prop data "gold18k_per_gram";
  v18 ← validate g18 6480;
  ag ← get_prop data "silver_per_kg";
  vag ← validate ag 108500;
  cu ← get_prop data "copper_per_kg";
  vcu ← validate cu 920;
  stamp ← get_prop data "last_updated_time";
  mret {| gold24k := v24;
          gold22k := v22;
          gold18k := v18;
          silver := vag;
          copper := vcu;
          lastUpdated := or_else stamp (Str (now w));
          currency := "INR" |}.

(** The five conversions of lines 223-227, in the order of the object
    literal; the first that throws ends them. *)
Definition convertAll (g24 g22 g18 ag cu : value)
    : result (number * number * number * number * number) :=
  n24 ← ToNumber rt g24;
  n22 ← ToNumber rt g22;
  n18 ← ToNumber rt g18;
  nag ← ToNumber rt ag;
  ncu ← ToNumber rt cu;
  mret (n24, n22, n18, nag, ncu).

(** The acceptance rule of [validate] in words: a number that is not NaN
    and is strictly greater than 0 is kept, anything else gives way to the
    fallback. *)
Definition keepPositive (num fallback : number) : number :=
  if negb (isNaN num) && gt num 0 then num else fallback.

(** The same with "finite" in place of "not NaN". *)
Definition keepFinitePositive (num fallback : number) : number :=
  if isFinite num && gt num 0 then num else fallback.

(** The conversions of lines 154 and 165, applied to the number the quoted
    price converts to, and the bands of lines 158 and 166, by name. *)
Definition goldPerGram (price : number) : number :=
  price / 31.1035.

Definition silverPerKg (price : number) : number :=
  (price / 31.1035) * 1000.

Definition goldInBand (perGram : number) : bool :=
  gt perGram 5000 && lt perGram 12000.

Definition silverInBand (perKg : number) : bool :=
  gt perKg 50000 && lt perKg 150000.

(** Lines 232-240: the snapshot of the innermost [catch]. *)
Definition staticFallback (w : world) : MetalPrices :=
  {| gold24k := 8650;
     gold22k := 7930;
     gold18k := 6480;
     silver := 108500;
     copper := 920;
     lastUpdated := Str (now w);
     currency := "INR" |}.

Definition fetchLiveMetalPrices (w : world) : result MetalPrices :=
  try_catch (primaryPath w)
    (fun error =>
       try_catch (generativeFallback w)
         (fun fallbackError => mret (staticFallback w))).

End Service.
End metalService.

(** ** App.tsx: the ticker and the price history *)

Module App.
Import metalService.

Record PriceHistory := {
  time : string;
  value : Js.number
}.

(** [Record<string, PriceHistory[]>] *)
Abbreviation History := (gmap string (list PriceHistory)).

(** The initial value of the [history] state (lines 57-61). *)
Definition initialHistory : History :=
  {[ "gold" := []; "silver" := []; "copper" := [] ]}.

(** [l.slice(-n)]: the last [n] elements, all of [l] when it is shorter. *)
Definition slice_last {A} (n : nat) (l : list A) : list A :=
  drop (length l - n) l.

(** Lines 111-118: [cleanData] of [loadPrices]. *)
Definition cleanData (data : MetalPrices) : MetalPrices :=
  {| gold24k := if Js.isNaN (gold24k data) then 8650 else gold24k data;
     gold22k := if Js.isNaN (gold22k data) then 7930 else gold22k data;
     gold18k := if Js.isNaN (gold18k data) then 6480 else gold18k data;
     silver := if Js.isNaN (silver data) then 108500 else silver data;
     copper := if Js.isNaN (copper data) then 920 else copper data;
     lastUpdated := lastUpdated data;
     currency := currency data |}.

Section Ticker.
(** [random k] is what the [k]-th call of [Math.random()] returns. *)
Context (random : nat -> Js.number).

(** The perturbation drawn at line 143: [Math.random() * 0.001 - 0.0005]. *)
Definition perturbation (r : Js.number) : Js.number := r * 0.001 - 0.0005.

(** Lines 141-146. The second component counts the calls of [Math.random]. *)
Definition fluctuate (val : Js.number) (k : nat) : Js.number * nat :=
  if Js.isNaN val then (1000, k)
  else
    let change := 1 + perturbation (random k) in
    let result := val * change in
    (if Js.isNaN result then val else result, S k).

(** Lines 148-155: the object [updated]. *)
Definition perturb (prev : MetalPrices) (k : nat) : MetalPrices * nat :=
  let '(g24, k) := fluctuate (gold24k prev) k in
  let '(g22, k) := fluctuate (gold22k prev) k in
  let '(g18, k) := fluctuate (gold18k prev) k in
  let '(ag, k) := fluctuate (silver prev) k in
  let '(cu, k) := fluctuate (copper prev) k in
  ({| gold24k := g24; gold22k := g22; gold18k := g18;
      silver := ag; copper := cu;
      lastUpdated := lastUpdated prev; currency := currency prev |}, k).

(** Line 164. *)
Definition metalValue (updated : MetalPrices) (m : string) : Js.number :=
  if String.eqb m "gold" then gold24k updated
  else if String.eqb m "silver" then silver updated
  else copper updated.

(** Lines 164-167: the body of [metals.forEach]; reading [newHistory[m]]
    of a missing key gives undefined, and [.slice] on it throws. *)
Definition recordMetal (now : string) (updated : MetalPrices)
    (acc : Js.result History) (m : string) : Js.result History :=
  newHistory ← acc;
  let val := metalValue updated m in
  if negb (Js.isNaN val) then
    match newHistory !! m with
    | Some points =>
        Js.Ok (<[m := slice_last 19 points ++ [{| time := now; value := val |}]]> newHistory)
    | None => Js.Throw Js.TypeError
    end
  else Js.Ok newHistory.

Definition metals : list string := ["gold"; "silver"; "copper"].

(** Lines 159-171: the updater passed to [setHistory]. *)
Definition updateHistory (now : string) (updated : MetalPrices) (h : History)
    : Js.result History :=
  foldl (recordMetal now updated) (Js.Ok h) metals.

(** The state of the component that the ticker reads and writes, and the
    number of [Math.random] calls made so far. *)
Record state := {
  basePrices : option MetalPrices;
  livePrices : option MetalPrices;
  history : History;
  draws : nat
}.

(** The state at mount (lines 52-61). *)
Definition mount : state :=
  {| basePrices := None; livePrices := None;
     history := initialHistory; draws := 0 |}.

(** What the scheduler delivers: [loadPrices] resuming with the snapshot it
    awaited, and the 1-second interval firing at clock reading [now]. *)
Inductive event :=
| Loaded (data : MetalPrices)
| Tick (now : string).

(** Lines 136-175: one firing of the interval. The interval only exists
    while [basePrices] is set (line 134). *)
Definition tick (now : string) (st : state) : Js.result state :=
  if basePrices st is Some _ then
    match livePrices st with
    | None => Js.Ok st
    | Some prev =>
        let '(updated, k) := perturb prev (draws st) in
        h ← updateHistory now updated (history st);
        Js.Ok {| basePrices := basePrices st; livePrices := Some updated;
                 history := h; draws := k |}
    end
  else Js.Ok st.

Definition step (st : state) (ev : event) : Js.result state :=
  match ev with
  | Loaded data =>
      Js.Ok {| basePrices := Some (cleanData data);
               livePrices := Some (cleanData data);
               history := history st; draws := draws st |}
  | Tick now => tick now st
  end.


Definition run (st : state) (evs : list event) : Js.result state :=
  foldl (fun acc ev => st ← acc; step st ev) (Js.Ok st) evs.



End Ticker.


(** Every metal key of [h] is present, with the points [L] names for it. *)
Definition keyed (h : History) (L : string -> list PriceHistory) : Prop :=
  Forall (fun m => h !! m = Some (L m)) metals.

(** Every metal key of [h] is present and holds at most 20 points. *)
Definition bounded (h : History) : Prop :=
  Forall (fun m => exists pts, h !! m = Some pts /\ (length pts <= 20)%nat) metals.

(** What every reachable state satisfies: a bounded history, and live
    prices only once base prices are set. *)
Definition loaded_inv (st : state) : Prop :=
  bounded (history st) /\ (is_Some (livePrices st) -> is_Some (basePrices st)).

End App.

(** ** Concrete runtimes and worlds *)

Module Scenarios.
Import Js metalService.

(** A runtime in which no string is numeric and [JSON.parse] always throws. *)
Definition rt_none : runtime :=
  {| StringToNumber := fun _ => NaN;
     ObjectToString := fun _ => Ok "[object Object]"%string;
     parseFloat := fun _ => NaN;
     JSON_parse := fun _ => None |}.

Definition quote (price : number) : http_outcome :=
  Response true "OK" (Ok (Obj [("price"%string, Num price)])).

(** Both quotes arrive; the generative model is unreachable. *)
Definition quotes (gold silver_ : number) : world :=
  {| net := fun url =>
       if String.eqb url (goldapi_url "XAU") then quote gold
       else if String.eqb url (goldapi_url "XAG") then quote silver_
       else NetworkFailure;
     generateContent := fun _ => Throw TransportError;
     now := "3/11/2026, 10:00:00 AM" |}.

(** Gold at 50 and silver at 10 per troy ounce: both far below their bands. *)
Definition implausible : world := quotes 50 10.

(** Gold at 279500 and silver at 3000 per troy ounce: both inside. *)
Definition plausible : world := quotes 279500 3000.

(** Gold at 160008 per troy ounce, about 5144.37 per gram: inside the
    band, close to its lower end. *)
Definition lowGold : world := quotes 160008 3000.

(** Nothing answers: every fetch and every generative call rejects. *)
Definition offline : world :=
  {| net := fun _ => NetworkFailure;
     generateContent := fun _ => Throw TransportError;
     now := "3/11/2026, 10:00:00 AM" |}.

Definition dquote : string :=
  String (Ascii.Ascii false true false false false true false false) EmptyString.

(** The JSON text [{"gold24k_per_gram": 1e999}]: the literal overflows
    binary64, and [JSON.parse] reads it as [Infinity]. *)
Definition overflow_text : string :=
  ("{" ++ dquote ++ "gold24k_per_gram" ++ dquote ++ ": 1e999}")%string.

Definition rt_overflow : runtime :=
  {| StringToNumber := fun _ => NaN;
     ObjectToString := fun _ => Ok "[object Object]"%string;
     parseFloat := fun _ => NaN;
     JSON_parse := fun text =>
       if String.eqb text overflow_text
       then Some (Obj [("gold24k_per_gram"%string, Num Infinity)])
       else None |}.

(** The quote API is down and the search-augmented model answers with
    [overflow_text]. *)
Definition overflow : world :=
  {| net := fun _ => NetworkFailure;
     generateContent := fun p =>
       match p with
       | SnapshotQuery => Ok (Some overflow_text)
       | CopperQuery => Throw TransportError
       end;
     now := "3/11/2026, 10:00:00 AM" |}.

(** A snapshot and a random source whose every draw is 0.5. *)
Definition sample : MetalPrices :=
  {| gold24k := 8986.25; gold22k := 8237.5; gold18k := 6739.75;
     silver := 96452.5; copper := 945.25;
     lastUpdated := Str "3/11/2026, 10:00:00 AM"; currency := "INR" |}.

Definition half : nat -> number := fun _ => 0.5.

(** Twenty-five clock readings, named by their rank. *)
Definition clock25 : list string :=
  ["t01"; "t02"; "t03"; "t04"; "t05"; "t06"; "t07"; "t08"; "t09"; "t10";
   "t11"; "t12"; "t13"; "t14"; "t15"; "t16"; "t17"; "t18"; "t19"; "t20";
   "t21"; "t22"; "t23"; "t24"; "t25"]%string.

(** A source of draws that varies with the call. *)
Definition saw : nat -> number :=
  fun k => if Nat.even k then 0.25 else 0.75.

End Scenarios.

(** ** App.tsx: loading, the session trend and the weight tables *)

Module Dashboard.
Import metalService App.

(** The [activeTab] state. *)
Inductive tab := TabGold | TabSilver | TabCopper.

(** Lines 192-193: the price a tab watches. *)
Definition activeValue (prices : MetalPrices) (activeTab : tab) : Js.number :=
  match activeTab with
  | TabGold => gold24k prices
  | TabSilver => silver prices
  | TabCopper => copper prices
  end.

(** Lines 190-196: [currentTrend]. *)
Definition currentTrend (basePrices livePrices : option MetalPrices)
    (activeTab : tab) : Js.number :=
  match basePrices, livePrices with
  | Some base, Some live =>
      let activePrice := activeValue live activeTab in
      let basePrice := activeValue base activeTab in
      if Js.isNaN activePrice || Js.isNaN basePrice || Js.strict_eq basePrice 0
      then 0
      else ((activePrice - basePrice) / basePrice) * 100
  | _, _ => 0
  end.

Definition GOLD_WEIGHTS : list Js.number := [1; 2; 5; 10; 50; 100].
Definition METAL_WEIGHTS : list Js.number := [0.1; 0.25; 0.5; 1; 5; 10].

(** Lines 665-684: the amounts of one row of the gold table, each handed to
    [formatCurrency]. *)
Record goldRow := {
  weight : Js.number;
  amount24k : Js.number;
  amount22k : Js.number;
  amount18k : Js.number
}.

Definition goldTable (prices : MetalPrices) : list goldRow :=
  map (fun weight =>
         {| weight := weight;
            amount24k := gold24k prices * weight;
            amount22k := gold22k prices * weight;
            amount18k := gold18k prices * weight |})
      GOLD_WEIGHTS.

(** Lines 769-781: the rows of the silver or copper table. *)
Definition metalTable (price : Js.number) : list (Js.number * Js.number) :=
  map (fun weight => (weight, price * weight)) METAL_WEIGHTS.

(** No price field is NaN. *)
Definition noNaN (prices : MetalPrices) : Prop :=
  Js.isNaN (gold24k prices) = false /\
  Js.isNaN (gold22k prices) = false /\
  Js.isNaN (gold18k prices) = false /\
  Js.isNaN (silver prices) = false /\
  Js.isNaN (copper prices) = false.

(** Every price field is a number strictly above 0. *)
Definition allPositive (prices : MetalPrices) : Prop :=
  Forall (fun x => Js.isNaN x = false /\ Js.gt x 0 = true)
    [gold24k prices; gold22k prices; gold18k prices; silver prices; copper prices].

Section Session.
Context (rt : Js.runtime) (random : nat -> Js.number).

(** Lines 106-124: [loadPrices], at the point where it resumes with what
    [fetchLiveMetalPrices] returned in world [w]. *)
Definition loadPrices (w : world) (st : state) : Js.result state :=
  data ← fetchLiveMetalPrices rt w;
  step random st (Loaded data).

(** What a session is made of: a refresh (on mount, every 60 s, or on the
    user's request) completing in some world, and the 1-second interval
    firing. *)
Inductive action :=
| Refresh (w : world)
| Fire (now : string).

Definition act (st : state) (a : action) : Js.result state :=
  match a with
  | Refresh w => loadPrices w st
  | Fire now => tick random now st
  end.

Definition session (st : state) (actions : list action) : Js.result state :=
  foldl (fun acc a => st ← acc; act st a) (Js.Ok st) actions.

End Session.

(** What the display relies on in a state: base and live prices are set
    together, neither holds a NaN, and the live snapshot keeps the
    timestamp and currency of the base snapshot. *)
Definition displayable (st : state) : Prop :=
  match basePrices st, livePrices st with
  | Some base, Some live =>
      noNaN base /\ noNaN live /\
      lastUpdated live = lastUpdated base /\ currency live = currency base
  | None, None => True
  | _, _ => False
  end.

(** No point of any history entry holds NaN. *)
Definition chartable (h : History) : Prop :=
  forall m pts, h !! m = Some pts ->
    Forall (fun point => Js.isNaN (value point) = false) pts.

(** The invariants of the history and of the display together. *)
Definition ready (st : state) : Prop := loaded_inv st /\ displayable st.

(** Whatever is on display is priced in rupees. *)
Definition priced_in_INR (st : state) : Prop :=
  forall live, livePrices st = Some live -> currency live = "INR"%string.

End Dashboard.

(** ** server.ts: the OAuth callback *)

Module authServer.
Import Js metalService.

(** The environment variables read at lines 17-19. *)
Record config := {
  GOOGLE_CLIENT_ID : option string;
  GOOGLE_CLIENT_SECRET : option string;
  APP_URL_env : option string
}.

(** Lines 19-20. *)
Definition APP_URL (cfg : config) : string :=
  text_or (APP_URL_env cfg) "http://localhost:3000".

Definition REDIRECT_URI (cfg : config) : string :=
  (APP_URL cfg ++ "/auth/google/callback")%string.

(** The form posted to the token endpoint (lines 55-61). *)
Record tokenRequest := {
  code : value;
  client_id : option string;
  client_secret : option string;
  redirect_uri : string;
  grant_type : string
}.

(** The requests the handler sends. *)
Inductive outbound :=
| TokenExchange (form : tokenRequest)
| UserInfo (authorization : string).

(** Google, as the handler meets it. *)
Record remote := {
  token_endpoint : tokenRequest -> http_outcome;
  userinfo_endpoint : string -> http_outcome
}.

Inductive content :=
| Text (text : string)
| SuccessPage (name email picture : string).   (* the page of lines 73-90 *)

Record reply := {
  status : nat;
  body : content
}.

(** A handler step: it may send requests, and returns or throws. *)
Definition io (A : Type) : Type := list outbound -> list outbound * result A.

#[global] Instance io_ret : MRet io := fun A a log => (log, Ok a).
#[global] Instance io_bind : MBind io := fun A B k m log =>
  match m log with
  | (log', Ok a) => k a log'
  | (log', Throw e) => (log', Throw e)
  end.

Definition lift {A} (r : result A) : io A := fun log => (log, r).

Definition try_catch_io {A} (body : io A) (handler : exn -> io A) : io A :=
  fun log =>
    match body log with
    | (log', Ok a) => (log', Ok a)
    | (log', Throw e) => handler e log'
    end.

(** [await (await fetch(...)).json()]: the request leaves, and the parsed
    body comes back whatever the status of the response. *)
Definition fetch_json (request : outbound) (answer : http_outcome) : io value :=
  fun log =>
    (log ++ [request],
     match answer with
     | NetworkFailure => Throw TransportError
     | Response _ _ json => json
     end).

Section Handlers.
Context (rt : runtime) (NumberToString : number -> string).

(** The string a template literal puts for a value; it throws where the
    conversion of an array or object to a primitive does. *)
Definition ToString (v : value) : result string :=
  match v with
  | Undefined => Ok "undefined"%string
  | Null => Ok "null"%string
  | Bool true => Ok "true"%string
  | Bool false => Ok "false"%string
  | Num x => Ok (NumberToString x)
  | Str s => Ok s
  | Arr _ | Obj _ => ObjectToString rt v
  end.

Context (cfg : config) (google : remote).

(** Lines 46-95: the handler of [/auth/google/callback], given
    [req.query.code]. *)
Definition callback (query_code : value) : io reply :=
  let code := query_code in
  if negb (truthy code) then mret {| status := 400; body := Text "No code provided" |}
  else
    try_catch_io
      (let form := {| code := code;
                      client_id := GOOGLE_CLIENT_ID cfg;
                      client_secret := GOOGLE_CLIENT_SECRET cfg;
                      redirect_uri := REDIRECT_URI cfg;
                      grant_type := "authorization_code" |} in
       tokens ← fetch_json (TokenExchange form) (token_endpoint google form);
       access_token ← lift (get_prop tokens "access_token");
       bearer ← lift (ToString access_token);
       let authorization := ("Bearer " ++ bearer)%string in
       userData ← fetch_json (UserInfo authorization)
                    (userinfo_endpoint google authorization);
       name ← lift (get_prop userData "name");
       name ← lift (ToString name);
       email ← lift (get_prop userData "email");
       email ← lift (ToString email);
       picture ← lift (get_prop userData "picture");
       picture ← lift (ToString picture);
       mret {| status := 200; body := SuccessPage name email picture |})
      (fun error => mret {| status := 500; body := Text "Authentication failed" |}).

End Handlers.
End authServer.

(** ** App.tsx: the OAuth message listener *)

Module AuthUi.
Import Js.

(** [s.includes(t)]: [t] occurs somewhere in [s]. *)
Fixpoint includes (s t : string) : bool :=
  String.prefix t s ||
  match s with
  | EmptyString => false
  | String _ rest => includes rest t
  end.

(** [s.endsWith(t)]: some suffix of [s] is [t]. *)
Fixpoint endsWith (s t : string) : bool :=
  String.eqb s t ||
  match s with
  | EmptyString => false
  | String _ rest => endsWith rest t
  end.

(** The [user] and [showAuth] states (lines 64-65). *)
Record authState := {
  user : value;
  showAuth : bool
}.

(** [v?.key] *)
Definition optional_prop (v : value) (key : string) : value :=
  match get_prop v key with
  | Ok x => x
  | Throw _ => Undefined
  end.

(** Lines 70-78: [handleMessage] on a message with the given origin and
    data. *)
Definition handleMessage (origin : string) (data : value) (st : authState)
    : authState :=
  if negb (endsWith origin ".run.app") && negb (includes origin "localhost")
  then st
  else
    match optional_prop data "type" with
    | Str type =>
        if String.eqb type "OAUTH_AUTH_SUCCESS"
        then {| user := optional_prop data "user"; showAuth := false |}
        else st
    | _ => st
    end.

End AuthUi.

(** ** Further runtimes, worlds and states *)

Module MoreScenarios.
Import Js metalService App Scenarios authServer.

(** Both quote calls answer with the empty object: no [price]. *)
Definition priceless : world :=
  {| net := fun _ => Response true "OK" (Ok (Obj []));
     generateContent := fun _ => Throw TransportError;
     now := "3/11/2026, 10:00:00 AM" |}.

(** The quote API is down and the model answers without any text. *)
Definition mute : world :=
  {| net := fun _ => NetworkFailure;
     generateContent := fun _ => Ok None;
     now := "3/11/2026, 10:00:00 AM" |}.

(** Both quotes arrive and the copper answer has no text. *)
Definition quietCopper : world :=
  {| net := net plausible;
     generateContent := fun _ => Ok None;
     now := "3/11/2026, 10:00:00 AM" |}.

(** A runtime that parses the text of the empty object and nothing else. *)
Definition rt_braces : runtime :=
  {| StringToNumber := fun _ => NaN;
     ObjectToString := fun _ => Ok "[object Object]"%string;
     parseFloat := fun _ => NaN;
     JSON_parse := fun text =>
       if String.eqb text "{}" then Some (Obj []) else None |}.

(** The JSON text
    [{"gold24k_per_gram":{"toString":1},"silver_per_kg":100000}]: its gold
    field is an object whose own [toString] is not callable. *)
Definition poisoned_text : string :=
  ("{" ++ dquote ++ "gold24k_per_gram" ++ dquote ++ ":{" ++ dquote ++ "toString"
   ++ dquote ++ ":1}," ++ dquote ++ "silver_per_kg" ++ dquote ++ ":100000}")%string.

(** Whether a parsed object has an own property [key]. *)
Definition has_own (props : list (string * Js.value)) (key : string) : bool :=
  existsb (fun kv => String.eqb (fst kv) key) props.

(** The conversion of parsed JSON objects to a primitive: an own [toString]
    hides the inherited method and, coming from JSON, is not callable, so
    the conversion throws; any other object gives "[object Object]".
    Arrays, which these scenarios never convert, are given the text of the
    empty array. *)
Definition jsonObjectToString (v : Js.value) : result string :=
  match v with
  | Obj props =>
      if has_own props "toString" then Throw TypeError
      else Ok "[object Object]"%string
  | _ => Ok EmptyString
  end.

Definition poisoned_data : Js.value :=
  Obj [("gold24k_per_gram"%string, Obj [("toString"%string, Num 1)]);
       ("silver_per_kg"%string, Num 100000)].

Definition rt_poisoned : runtime :=
  {| StringToNumber := fun _ => NaN;
     ObjectToString := jsonObjectToString;
     parseFloat := fun _ => NaN;
     JSON_parse := fun text =>
       if String.eqb text poisoned_text then Some poisoned_data else None |}.

(** The quote API is down and the search-augmented model answers with
    [poisoned_text]. *)
Definition poisoned : world :=
  {| net := fun _ => NetworkFailure;
     generateContent := fun p =>
       match p with
       | SnapshotQuery => Ok (Some poisoned_text)
       | CopperQuery => Throw TransportError
       end;
     now := "3/11/2026, 10:00:00 AM" |}.

(** Both quotes arrive; the silver price is an object whose own [toString]
    is not callable. *)
Definition poisonedSilver : world :=
  {| net := fun url =>
       if String.eqb url (goldapi_url "XAU") then quote 279500
       else Response true "OK"
              (Ok (Obj [("price"%string, Obj [("toString"%string, Num 1)])]));
     generateContent := fun _ => Throw TransportError;
     now := "3/11/2026, 10:00:00 AM" |}.

(** Google answering the token request with an [access_token] that is such
    an object. *)
Definition poisonedToken : remote :=
  {| token_endpoint := fun _ =>
       Response true "OK"
         (Ok (Obj [("access_token"%string, Obj [("toString"%string, Num 1)])]));
     userinfo_endpoint := fun _ =>
       Response true "OK" (Ok (Obj [("name"%string, Str "Asha")])) |}.

(** The component right after its first load delivered [sample]. *)
Definition loadedSample : state :=
  {| basePrices := Some sample; livePrices := Some sample;
     history := initialHistory; draws := 0 |}.

Definition unconfigured : config :=
  {| GOOGLE_CLIENT_ID := None; GOOGLE_CLIENT_SECRET := None; APP_URL_env := None |}.

(** Google refusing both requests with status 400 and 401 and a JSON error
    body. *)
Definition refusing : remote :=
  {| token_endpoint := fun _ =>
       Response false "Bad Request" (Ok (Obj [("error"%string, Str "invalid_grant")]));
     userinfo_endpoint := fun _ =>
       Response false "Unauthorized" (Ok (Obj [("error"%string, Str "invalid_token")])) |}.

End MoreScenarios.

(** * Facts about binary64 arithmetic *)

Module Binary64.

(** [isNaN] read on the specification side. *)
Lemma is_nan_spec (x : float) :
  PrimFloat.is_nan x = match Prim2SF x with S754_nan => true | _ => false end.
Proof.
  unfold PrimFloat.is_nan. rewrite FloatAxioms.eqb_spec.
  destruct (Prim2SF x) as [s|s| |s m e]; try destruct s; try reflexivity.
  all: unfold SFeqb, SFcompare;
    rewrite Z.compare_refl, Pos.compare_cont_refl; reflexivity.
Qed.

(** For a number that is not NaN, [x <= 0] is the negation of [0 < x]. *)
Lemma leb_zero_ltb (x : float) :
  PrimFloat.is_nan x = false -> (x <=? 0) = negb (0 <? x).
Proof.
  rewrite is_nan_spec, FloatAxioms.leb_spec, FloatAxioms.ltb_spec.
  change (Prim2SF 0) with (S754_zero false).
  destruct (Prim2SF x) as [s|s| |s m e]; try destruct s;
    try reflexivity; discriminate.
Qed.

Definition sf_one : spec_float := S754_finite false 4503599627370496 (-52).

Lemma Prim2SF_one : Prim2SF 1 = sf_one.
Proof. reflexivity. Qed.

(** Multiplying a representable value by one is exact: the product
    mantissa [m * 2^52] is shifted back by 52 bits with nothing lost. *)
Lemma SFmul_one_r (x : spec_float) :
  valid_binary x = true -> SF64mul x sf_one = x.
Proof.
  destruct x as [s|s| |s m e]; intros Hv;
    [destruct s; reflexivity .. | reflexivity | ].
  cbn in Hv. unfold bounded, canonical_mantissa in Hv.
  apply andb_prop in Hv as [Hc He].
  apply Z.eqb_eq in Hc.
  unfold SF64mul, SFmul, sf_one.
  rewrite Pos.mul_comm.
  unfold binary_round_aux, shr_fexp.
  unfold Zdigits2 at 1.
  let t := eval cbv in (4503599627370496 * m)%positive in
    change (4503599627370496 * m)%positive with t.
  match goal with |- context [digits2_pos ?t] =>
    lazymatch t with m => fail | _ => idtac end;
    assert (Hd : (Z.pos (digits2_pos t) = Z.pos (digits2_pos m) + 52)%Z)
      by (simpl digits2_pos; lia);
    rewrite Hd; clear Hd
  end.
  replace (Z.pos (digits2_pos m) + 52 + (e + -52))%Z
    with (Z.pos (digits2_pos m) + e)%Z by lia.
  rewrite Hc.
  replace (e - (e + -52))%Z with 52%Z by lia.
  unfold shr at 1.
  match goal with |- context [SpecFloat.iter_pos shr_1 52 ?r] =>
    let v := eval cbv in (SpecFloat.iter_pos shr_1 52 r) in
    change (SpecFloat.iter_pos shr_1 52 r) with v
  end.
  cbv beta iota.
  cbn [shr_m loc_of_shr_record round_nearest_even shr_record_of_loc Zdigits2].
  replace (e + -52 + 52)%Z with e by lia.
  rewrite Hc, Z.sub_diag.
  cbn [shr shr_m].
  rewrite He, xorb_false_r. reflexivity.
Qed.

Lemma mul_one_r (x : float) : x * 1 = x.
Proof.
  apply Prim2SF_inj.
  rewrite mul_spec, Prim2SF_one.
  apply SFmul_one_r, Prim2SF_valid.
Qed.

(** Adding a zero of either sign to one leaves one. *)
Lemma one_add_zero (u : float) : (u =? 0) = true -> 1 + u = 1.
Proof.
  rewrite FloatAxioms.eqb_spec. intros Hu.
  apply Prim2SF_inj. rewrite add_spec, Prim2SF_one.
  change (Prim2SF 0) with (S754_zero false) in Hu.
  destruct (Prim2SF u) as [s|s| |s m e]; try destruct s;
    try discriminate Hu; reflexivity.
Qed.

End Binary64.

(** * The price aggregator *)

Module ServiceProofs.
Import Js metalService Scenarios.

Section Aggregator.
Context (rt : runtime).

(** The copper estimate has its own try/catch and always yields a number. *)
Lemma copperEstimate_total (w : world) :
  exists c, copperEstimate rt w = Ok c.
Proof.
  unfold copperEstimate.
  destruct (generateContent w CopperQuery) as [text|e]; simpl; eauto.
Qed.

(** With the generative model out of reach the estimate is the constant. *)
Lemma copperEstimate_unreachable (w : world) (e : exn) :
  generateContent w CopperQuery = Throw e -> copperEstimate rt w = Ok 945.25.
Proof. unfold copperEstimate. intros ->. reflexivity. Qed.

(** The snapshot the outer [try] returns once both quotes are in hand and
    their prices converted to numbers. *)
Lemma primaryPath_quotes (w : world) (goldData silverData goldPrice silverPrice : value)
    (goldNumber silverNumber : number) :
  fetchFromGoldApi w "XAU" = Ok goldData ->
  fetchFromGoldApi w "XAG" = Ok silverData ->
  get_prop goldData "price" = Ok goldPrice ->
  get_prop silverData "price" = Ok silverPrice ->
  ToNumber rt goldPrice = Ok goldNumber ->
  ToNumber rt silverPrice = Ok silverNumber ->
  exists c,
    copperEstimate rt w = Ok c /\
    primaryPath rt w =
      Ok {| gold24k := goldNumber / 31.1035;
            gold22k := gateGold (goldNumber / 31.1035) * (22 / 24);
            gold18k := gateGold (goldNumber / 31.1035) * (18 / 24);
            silver := (silverNumber / 31.1035) * 1000;
            copper := c;
            lastUpdated := Str (now w);
            currency := "INR" |}.
Proof.
  intros Hg Hs Hgp Hsp Hgn Hsn.
  destruct (copperEstimate_total w) as [c Hc].
  exists c. split; [exact Hc|].
  unfold primaryPath. rewrite Hg, Hs. simpl.
  rewrite Hgp. simpl. rewrite Hgn. simpl.
  rewrite Hsp. simpl. rewrite Hsn. simpl. rewrite Hc. reflexivity.
Qed.

(** A price that cannot be converted makes the outer [try] throw, though
    both quotes were fetched. *)
Lemma primaryPath_conversion_failure (w : world)
    (goldData silverData goldPrice silverPrice : value) (e : exn) :
  fetchFromGoldApi w "XAU" = Ok goldData ->
  fetchFromGoldApi w "XAG" = Ok silverData ->
  get_prop goldData "price" = Ok goldPrice ->
  get_prop silverData "price" = Ok silverPrice ->
  ToNumber rt goldPrice = Throw e \/ ToNumber rt silverPrice = Throw e ->
  exists e', primaryPath rt w = Throw e'.
Proof.
  intros Hg Hs Hgp Hsp Hfail.
  unfold primaryPath. rewrite Hg, Hs. simpl. rewrite Hgp. simpl.
  destruct Hfail as [H|H].
  - rewrite H. simpl. eauto.
  - destruct (ToNumber rt goldPrice); simpl; [|eauto].
    rewrite Hsp. simpl. rewrite H. simpl. eauto.
Qed.

(** A quote that cannot be fetched makes the outer [try] throw. *)
Lemma primaryPath_adapter_failure (w : world) (e : exn) :
  fetchFromGoldApi w "XAU" = Throw e \/ fetchFromGoldApi w "XAG" = Throw e ->
  exists e', primaryPath rt w = Throw e'.
Proof.
  unfold primaryPath. intros [H|H]; rewrite H.
  - simpl. eauto.
  - destruct (fetchFromGoldApi w "XAU"); simpl; eauto.
Qed.

(** The inner [try] throws when the model rejects or its text is not JSON. *)
Lemma generativeFallback_failure (w : world) :
  (exists e, generateContent w SnapshotQuery = Throw e) \/
  (exists response, generateContent w SnapshotQuery = Ok response /\
                    JSON_parse rt (text_or response "{}") = None) ->
  exists e', generativeFallback rt w = Throw e'.
Proof.
  unfold generativeFallback. intros [[e H]|[response [H Hp]]]; rewrite H; simpl.
  - eauto.
  - rewrite Hp. simpl. eauto.
Qed.

(** A snapshot that a tier returns is what the aggregator returns, tier by
    tier. *)
Lemma fetchLiveMetalPrices_tiers (w : world) :
  match primaryPath rt w with
  | Ok s => fetchLiveMetalPrices rt w = Ok s
  | Throw _ =>
      match generativeFallback rt w with
      | Ok s => fetchLiveMetalPrices rt w = Ok s
      | Throw _ => fetchLiveMetalPrices rt w = Ok (staticFallback w)
      end
  end.
Proof.
  unfold fetchLiveMetalPrices.
  destruct (primaryPath rt w); simpl; [reflexivity|].
  destruct (generativeFallback rt w); reflexivity.
Qed.

(** Every snapshot a tier builds carries the currency code. *)
Lemma primaryPath_currency (w : world) (s : MetalPrices) :
  primaryPath rt w = Ok s -> currency s = "INR"%string.
Proof.
  unfold primaryPath.
  destruct (Promise_all2 _ _) as [[goldData silverData]|]; simpl; [|discriminate].
  destruct (get_prop goldData "price") as [goldPrice|]; simpl; [|discriminate].
  destruct (ToNumber rt goldPrice); simpl; [|discriminate].
  destruct (get_prop silverData "price") as [silverPrice|]; simpl; [|discriminate].
  destruct (ToNumber rt silverPrice); simpl; [|discriminate].
  destruct (copperEstimate rt w); simpl; [|discriminate].
  intros [= <-]. reflexivity.
Qed.

Lemma generativeFallback_currency (w : world) (s : MetalPrices) :
  generativeFallback rt w = Ok s -> currency s = "INR"%string.
Proof.
  unfold generativeFallback.
  destruct (generateContent w SnapshotQuery) as [response|]; simpl; [|discriminate].
  destruct (JSON_parse rt _) as [data|]; simpl; [|discriminate].
  destruct (get_prop data "gold24k_per_gram") as [g24|]; simpl; [|discriminate].
  destruct (validate rt g24 8650); simpl; [|discriminate].
  destruct (get_prop data "gold22k_per_gram") as [g22|]; simpl; [|discriminate].
  destruct (validate rt g22 7930); simpl; [|discriminate].
  destruct (get_prop data "gold18k_per_gram") as [g18|]; simpl; [|discriminate].
  destruct (validate rt g18 6480); simpl; [|discriminate].
  destruct (get_prop data "silver_per_kg") as [ag|]; simpl; [|discriminate].
  destruct (validate rt ag 108500); simpl; [|discriminate].
  destruct (get_prop data "copper_per_kg") as [cu|]; simpl; [|discriminate].
  destruct (validate rt cu 920); simpl; [|discriminate].
  destruct (get_prop data "last_updated_time"); simpl; [|discriminate].
  intros [= <-]. reflexivity.
Qed.

(** Of a value that converts, [validate] accepts exactly the numbers that
    are not NaN and exceed 0. *)
Lemma validate_keepPositive (val : value) (num fallback : number) :
  ToNumber rt val = Ok num ->
  validate rt val fallback = Ok (keepPositive num fallback).
Proof.
  intros Hnum. unfold validate. rewrite Hnum. simpl. f_equal.
  unfold keepPositive, isNaN, le, gt.
  destruct (PrimFloat.is_nan num) eqn:Hnan; simpl; [reflexivity|].
  rewrite (Binary64.leb_zero_ltb _ Hnan).
  destruct (0 <? num); reflexivity.
Qed.

(** [validate] throws exactly where the conversion does. *)
Lemma validate_throws (val : value) (fallback : number) (e : exn) :
  ToNumber rt val = Throw e -> validate rt val fallback = Throw e.
Proof. intros H. unfold validate. rewrite H. reflexivity. Qed.

End Aggregator.

(** The end-to-end scenario with gold at 279500 per ounce. *)
Example plausible_snapshot :
  fetchLiveMetalPrices rt_none plausible =
    Ok {| gold24k := 8986.1269632034982;
          gold22k := 8237.2830496032057;
          gold18k := 6739.5952224026241;
          silver := 96452.167762470461;
          copper := 945.25;
          lastUpdated := Str "3/11/2026, 10:00:00 AM";
          currency := "INR" |}.
Proof. vm_compute. reflexivity. Qed.

(** C1. At the quotes 50 (gold) and 10 (silver) per troy ounce, whose
    conversions lie far below the bands, the snapshot carries the raw
    conversions in [gold24k] and [silver], not the constants 8250.50 and
    105000.75; the gated gold value only reaches [gold22k] and [gold18k]. *)
Theorem C1_gated_values_not_returned (rt : runtime) :
  goldInBand (goldPerGram 50) = false /\
  silverInBand (silverPerKg 10) = false /\
  exists s,
    fetchLiveMetalPrices rt implausible = Ok s /\
    gold24k s = 50 / 31.1035 /\
    strict_eq (gold24k s) 8250.50 = false /\
    silver s = (10 / 31.1035) * 1000 /\
    strict_eq (silver s) 105000.75 = false /\
    gold22k s = 8250.50 * (22 / 24) /\
    gold18k s = 8250.50 * (18 / 24).
Proof.
  split; [reflexivity|]. split; [reflexivity|].
  eexists. split; [vm_compute; reflexivity|].
  repeat split; reflexivity.
Qed.

(** C2, as stated, fails: with every source down the snapshot is the static
    one, whose [gold22k] 7930 and [gold18k] 6480 are not 8650 * 22/24 and
    8650 * 18/24, whichever way the product is associated. And on the
    primary path with gold in band (160008 per ounce) the alloy prices are
    [gold24k * (22/24)] and [gold24k * (18/24)], which differ in the last
    bit from [gold24k * 22 / 24] and [gold24k * 18 / 24] read left to
    right. *)
Lemma C2_static_snapshot_breaks_ratio :
  (exists s,
     fetchLiveMetalPrices rt_none offline = Ok s /\
     strict_eq (gold22k s) (gold24k s * 22 / 24) = false /\
     strict_eq (gold22k s) (gold24k s * (22 / 24)) = false /\
     strict_eq (gold18k s) (gold24k s * 18 / 24) = false /\
     strict_eq (gold18k s) (gold24k s * (18 / 24)) = false) /\
  (exists s,
     fetchLiveMetalPrices rt_none lowGold = Ok s /\
     goldInBand (gold24k s) = true /\
     strict_eq (gold22k s) (gold24k s * 22 / 24) = false /\
     strict_eq (gold18k s) (gold24k s * 18 / 24) = false).
Proof.
  split.
  - eexists. split; [vm_compute; reflexivity|].
    repeat split; reflexivity.
  - eexists. split; [vm_compute; reflexivity|].
    repeat split; reflexivity.
Qed.

(** C2, amended. When both quotes arrive, both prices convert to numbers
    and the gold conversion lies in (5000, 12000), the snapshot is the one
    of the primary path and has [gold22k = gold24k * (22/24)] and
    [gold18k = gold24k * (18/24)], the ratio being evaluated first. *)
Theorem C2_primary_in_band_ratio (rt : runtime) (w : world)
    (goldData silverData goldPrice silverPrice : value)
    (goldNumber silverNumber : number) :
  fetchFromGoldApi w "XAU" = Ok goldData ->
  fetchFromGoldApi w "XAG" = Ok silverData ->
  get_prop goldData "price" = Ok goldPrice ->
  get_prop silverData "price" = Ok silverPrice ->
  ToNumber rt goldPrice = Ok goldNumber ->
  ToNumber rt silverPrice = Ok silverNumber ->
  goldInBand (goldPerGram goldNumber) = true ->
  exists s,
    fetchLiveMetalPrices rt w = Ok s /\
    gold24k s = goldNumber / 31.1035 /\
    gold22k s = gold24k s * (22 / 24) /\
    gold18k s = gold24k s * (18 / 24).
Proof.
  intros Hg Hs Hgp Hsp Hgn Hsn Hband.
  destruct (primaryPath_quotes rt w _ _ _ _ _ _ Hg Hs Hgp Hsp Hgn Hsn)
    as (c & _ & Hp).
  pose proof (fetchLiveMetalPrices_tiers rt w) as Ht. rewrite Hp in Ht.
  eexists. split; [exact Ht|]. simpl.
  unfold gateGold. unfold goldInBand, goldPerGram in Hband. rewrite Hband.
  repeat split; reflexivity.
Qed.

Lemma C2_primary_in_band_ratio_witness :
  exists s,
    fetchLiveMetalPrices rt_none plausible = Ok s /\
    gold24k s = 279500 / 31.1035 /\
    gold22k s = gold24k s * (22 / 24) /\
    gold18k s = gold24k s * (18 / 24).
Proof.
  apply (C2_primary_in_band_ratio rt_none plausible
           (Obj [("price"%string, Num 279500)]) (Obj [("price"%string, Num 3000)])
           (Num 279500) (Num 3000) 279500 3000); reflexivity.
Defined.

(** C3. Whatever the quote API and the generative model do, the aggregator
    returns a snapshot: no exception reaches its caller. *)
Theorem C3_fetchLiveMetalPrices_total (rt : runtime) (w : world) :
  exists s, fetchLiveMetalPrices rt w = Ok s.
Proof.
  pose proof (fetchLiveMetalPrices_tiers rt w) as Ht.
  destruct (primaryPath rt w); [eauto|].
  destruct (generativeFallback rt w); eauto.
Qed.

(** C4. When both quotes arrive, their prices convert to numbers, the gold
    conversion lies in (5000, 12000) and the silver conversion in
    (50000, 150000), the snapshot holds the direct conversions
    [price / 31.1035] and [(price / 31.1035) * 1000], and the two alloy
    prices derive from that same gold value: no fallback constant appears. *)
Theorem C4_in_band_direct_conversion (rt : runtime) (w : world)
    (goldData silverData goldPrice silverPrice : value)
    (goldNumber silverNumber : number) :
  fetchFromGoldApi w "XAU" = Ok goldData ->
  fetchFromGoldApi w "XAG" = Ok silverData ->
  get_prop goldData "price" = Ok goldPrice ->
  get_prop silverData "price" = Ok silverPrice ->
  ToNumber rt goldPrice = Ok goldNumber ->
  ToNumber rt silverPrice = Ok silverNumber ->
  goldInBand (goldPerGram goldNumber) = true ->
  silverInBand (silverPerKg silverNumber) = true ->
  exists s,
    fetchLiveMetalPrices rt w = Ok s /\
    gold24k s = goldNumber / 31.1035 /\
    silver s = (silverNumber / 31.1035) * 1000 /\
    gold22k s = (goldNumber / 31.1035) * (22 / 24) /\
    gold18k s = (goldNumber / 31.1035) * (18 / 24).
Proof.
  intros Hg Hs Hgp Hsp Hgn Hsn Hgb Hsb.
  destruct (primaryPath_quotes rt w _ _ _ _ _ _ Hg Hs Hgp Hsp Hgn Hsn)
    as (c & _ & Hp).
  pose proof (fetchLiveMetalPrices_tiers rt w) as Ht. rewrite Hp in Ht.
  eexists. split; [exact Ht|]. simpl.
  unfold gateGold. unfold goldInBand, goldPerGram in Hgb. rewrite Hgb.
  repeat split; reflexivity.
Qed.

Lemma C4_in_band_direct_conversion_witness :
  exists s,
    fetchLiveMetalPrices rt_none plausible = Ok s /\
    gold24k s = 279500 / 31.1035 /\
    silver s = (3000 / 31.1035) * 1000 /\
    gold22k s = (279500 / 31.1035) * (22 / 24) /\
    gold18k s = (279500 / 31.1035) * (18 / 24).
Proof.
  apply (C4_in_band_direct_conversion rt_none plausible
           (Obj [("price"%string, Num 279500)]) (Obj [("price"%string, Num 3000)])
           (Num 279500) (Num 3000) 279500 3000); reflexivity.
Defined.

(** C5, as stated, fails. When the quote API is down and the model answers
    [{"gold24k_per_gram": 1e999}], the parsed number is [Infinity], which
    is not finite, and the snapshot still carries it in [gold24k] instead of
    the constant 8650. And when it answers
    [{"gold24k_per_gram":{"toString":1},"silver_per_kg":100000}], the
    conversion of the gold field throws, the innermost [catch] returns the
    static snapshot, and [silver] is 108500 although its own parsed field
    is the finite positive number 100000. *)
Lemma C5_infinity_is_kept :
  (exists s,
     fetchLiveMetalPrices rt_overflow overflow = Ok s /\
     JSON_parse rt_overflow overflow_text
       = Some (Obj [("gold24k_per_gram"%string, Num Infinity)]) /\
     ToNumber rt_overflow (Num Infinity) = Ok Infinity /\
     isFinite Infinity = false /\
     gold24k s = Infinity /\
     strict_eq (gold24k s) (keepFinitePositive Infinity 8650) = false) /\
  (exists s,
     fetchLiveMetalPrices MoreScenarios.rt_poisoned MoreScenarios.poisoned = Ok s /\
     JSON_parse MoreScenarios.rt_poisoned MoreScenarios.poisoned_text = Some MoreScenarios.poisoned_data /\
     get_prop MoreScenarios.poisoned_data "silver_per_kg" = Ok (Num 100000) /\
     ToNumber MoreScenarios.rt_poisoned (Num 100000) = Ok 100000 /\
     silver s = 108500 /\
     strict_eq (silver s) (keepFinitePositive 100000 108500) = false).
Proof.
  split.
  - eexists. split; [vm_compute; reflexivity|].
    repeat split; reflexivity.
  - eexists. split; [vm_compute; reflexivity|].
    repeat split; reflexivity.
Qed.

(** C5, amended. On the generative path (the outer [try] threw, the model
    answered, its text parsed to a value other than null): when [Number] of
    each of the five parsed fields evaluates without throwing, each price
    field equals that number when it is not NaN and strictly greater than
    0, [Infinity] included, and its own constant (8650, 7930, 6480, 108500,
    920) otherwise, field by field; when one of the five conversions throws,
    the snapshot is the static one. *)
Theorem C5_generative_fields_validated (rt : runtime) (w : world) (e : exn)
    (response : option string) (data : value) :
  primaryPath rt w = Throw e ->
  generateContent w SnapshotQuery = Ok response ->
  JSON_parse rt (text_or response "{}") = Some data ->
  data <> Null ->
  data <> Undefined ->
  exists g24 g22 g18 ag cu stamp,
    get_prop data "gold24k_per_gram" = Ok g24 /\
    get_prop data "gold22k_per_gram" = Ok g22 /\
    get_prop data "gold18k_per_gram" = Ok g18 /\
    get_prop data "silver_per_kg" = Ok ag /\
    get_prop data "copper_per_kg" = Ok cu /\
    get_prop data "last_updated_time" = Ok stamp /\
    fetchLiveMetalPrices rt w =
      Ok match convertAll rt g24 g22 g18 ag cu with
         | Ok (n24, n22, n18, nag, ncu) =>
             {| gold24k := keepPositive n24 8650;
                gold22k := keepPositive n22 7930;
                gold18k := keepPositive n18 6480;
                silver := keepPositive nag 108500;
                copper := keepPositive ncu 920;
                lastUpdated := or_else stamp (Str (now w));
                currency := "INR" |}
         | Throw _ => staticFallback w
         end.
Proof.
  intros Hp Hgen Hparse Hnull Hundef.
  assert (Hread : forall key, exists v, get_prop data key = Ok v).
  { intros key. destruct data; simpl; eauto; congruence. }
  destruct (Hread "gold24k_per_gram"%string) as [g24 H24].
  destruct (Hread "gold22k_per_gram"%string) as [g22 H22].
  destruct (Hread "gold18k_per_gram"%string) as [g18 H18].
  destruct (Hread "silver_per_kg"%string) as [ag Hag].
  destruct (Hread "copper_per_kg"%string) as [cu Hcu].
  destruct (Hread "last_updated_time"%string) as [stamp Hst].
  exists g24, g22, g18, ag, cu, stamp.
  repeat (split; [assumption|]).
  pose proof (fetchLiveMetalPrices_tiers rt w) as Ht. rewrite Hp in Ht.
  unfold generativeFallback in Ht. rewrite Hgen in Ht. simpl in Ht.
  rewrite Hparse in Ht. simpl in Ht. rewrite H24 in Ht. simpl in Ht.
  unfold convertAll.
  destruct (ToNumber rt g24) as [n24|e24] eqn:E24; simpl;
    [rewrite (validate_keepPositive rt g24 n24 _ E24) in Ht
    |rewrite (validate_throws rt g24 _ e24 E24) in Ht; exact Ht].
  simpl in Ht. rewrite H22 in Ht. simpl in Ht.
  destruct (ToNumber rt g22) as [n22|e22] eqn:E22; simpl;
    [rewrite (validate_keepPositive rt g22 n22 _ E22) in Ht
    |rewrite (validate_throws rt g22 _ e22 E22) in Ht; exact Ht].
  simpl in Ht. rewrite H18 in Ht. simpl in Ht.
  destruct (ToNumber rt g18) as [n18|e18] eqn:E18; simpl;
    [rewrite (validate_keepPositive rt g18 n18 _ E18) in Ht
    |rewrite (validate_throws rt g18 _ e18 E18) in Ht; exact Ht].
  simpl in Ht. rewrite Hag in Ht. simpl in Ht.
  destruct (ToNumber rt ag) as [nag|eag] eqn:Eag; simpl;
    [rewrite (validate_keepPositive rt ag nag _ Eag) in Ht
    |rewrite (validate_throws rt ag _ eag Eag) in Ht; exact Ht].
  simpl in Ht. rewrite Hcu in Ht. simpl in Ht.
  destruct (ToNumber rt cu) as [ncu|ecu] eqn:Ecu; simpl;
    [rewrite (validate_keepPositive rt cu ncu _ Ecu) in Ht
    |rewrite (validate_throws rt cu _ ecu Ecu) in Ht; exact Ht].
  simpl in Ht. rewrite Hst in Ht. simpl in Ht. exact Ht.
Qed.

Lemma C5_generative_fields_validated_witness :
  exists g24 g22 g18 ag cu stamp,
    get_prop (Obj [("gold24k_per_gram"%string, Num Infinity)]) "gold24k_per_gram" = Ok g24 /\
    get_prop (Obj [("gold24k_per_gram"%string, Num Infinity)]) "gold22k_per_gram" = Ok g22 /\
    get_prop (Obj [("gold24k_per_gram"%string, Num Infinity)]) "gold18k_per_gram" = Ok g18 /\
    get_prop (Obj [("gold24k_per_gram"%string, Num Infinity)]) "silver_per_kg" = Ok ag /\
    get_prop (Obj [("gold24k_per_gram"%string, Num Infinity)]) "copper_per_kg" = Ok cu /\
    get_prop (Obj [("gold24k_per_gram"%string, Num Infinity)]) "last_updated_time" = Ok stamp /\
    fetchLiveMetalPrices rt_overflow overflow =
      Ok match convertAll rt_overflow g24 g22 g18 ag cu with
         | Ok (n24, n22, n18, nag, ncu) =>
             {| gold24k := keepPositive n24 8650;
                gold22k := keepPositive n22 7930;
                gold18k := keepPositive n18 6480;
                silver := keepPositive nag 108500;
                copper := keepPositive ncu 920;
                lastUpdated := or_else stamp (Str (now overflow));
                currency := "INR" |}
         | Throw _ => staticFallback overflow
         end.
Proof.
  apply (C5_generative_fields_validated rt_overflow overflow TransportError
           (Some overflow_text)
           (Obj [("gold24k_per_gram"%string, Num Infinity)]));
    [reflexivity | reflexivity | reflexivity | discriminate | discriminate].
Defined.

(** The two answers of C5, evaluated: a kept infinity, and a conversion
    that throws. *)
Example generative_answers :
  fetchLiveMetalPrices rt_overflow overflow =
    Ok {| gold24k := Infinity; gold22k := 7930; gold18k := 6480;
          silver := 108500; copper := 920;
          lastUpdated := Str "3/11/2026, 10:00:00 AM"; currency := "INR" |} /\
  fetchLiveMetalPrices MoreScenarios.rt_poisoned MoreScenarios.poisoned =
    Ok (staticFallback MoreScenarios.poisoned).
Proof. split; vm_compute; reflexivity. Qed.

(** C6. When the outer [try] and the inner [try] both throw, the aggregator
    returns the static snapshot: 8650, 7930, 6480, 108500, 920, currency
    "INR", and [lastUpdated] the current time. *)
Theorem C6_both_tiers_fail_static (rt : runtime) (w : world) (e1 e2 : exn) :
  primaryPath rt w = Throw e1 ->
  generativeFallback rt w = Throw e2 ->
  fetchLiveMetalPrices rt w =
    Ok {| gold24k := 8650; gold22k := 7930; gold18k := 6480;
          silver := 108500; copper := 920;
          lastUpdated := Str (now w); currency := "INR" |}.
Proof.
  intros H1 H2.
  pose proof (fetchLiveMetalPrices_tiers rt w) as Ht.
  rewrite H1, H2 in Ht. exact Ht.
Qed.

Lemma C6_both_tiers_fail_static_witness :
  fetchLiveMetalPrices rt_none offline =
    Ok {| gold24k := 8650; gold22k := 7930; gold18k := 6480;
          silver := 108500; copper := 920;
          lastUpdated := Str (now offline); currency := "INR" |}.
Proof.
  apply (C6_both_tiers_fail_static rt_none offline TransportError TransportError);
    reflexivity.
Defined.

(** C10. Every snapshot the aggregator returns, from whichever tier, has
    [currency] equal to "INR". *)
Theorem C10_currency_is_INR (rt : runtime) (w : world) (s : MetalPrices) :
  fetchLiveMetalPrices rt w = Ok s -> currency s = "INR"%string.
Proof.
  intros H.
  pose proof (fetchLiveMetalPrices_tiers rt w) as Ht.
  destruct (primaryPath rt w) as [s1|] eqn:H1.
  - rewrite H in Ht. injection Ht as ->.
    exact (primaryPath_currency rt w s1 H1).
  - destruct (generativeFallback rt w) as [s2|] eqn:H2;
      rewrite H in Ht; injection Ht as ->.
    + exact (generativeFallback_currency rt w s2 H2).
    + reflexivity.
Qed.

Lemma C10_currency_is_INR_witness :
  currency (staticFallback offline) = "INR"%string.
Proof.
  apply (C10_currency_is_INR rt_none offline (staticFallback offline)).
  reflexivity.
Defined.

End ServiceProofs.

(** * The ticker and its history *)

Module TickerProofs.
Import metalService App Scenarios.

Section Lists.
Context {A : Type}.
Implicit Types l pts r : list A.


Lemma length_slice_last n l : length (slice_last n l) = Nat.min n (length l).
Proof. unfold slice_last. rewrite length_drop. lia. Qed.





End Lists.

Section Ticker.
Context (random : nat -> Js.number).

Lemma fluctuate_not_NaN (val : Js.number) (k : nat) :
  Js.isNaN (fluctuate random val k).1 = false.
Proof.
  unfold fluctuate. destruct (Js.isNaN val) eqn:Hval; simpl; [reflexivity|].
  destruct (Js.isNaN (val * _)) eqn:Hres; simpl; assumption.
Qed.

Lemma fluctuate_zero_drift (val : Js.number) (k : nat) :
  Js.isNaN val = false ->
  Js.strict_eq (perturbation (random k)) 0 = true ->
  fluctuate random val k = (val, S k).
Proof.
  intros Hval Hu. unfold fluctuate. rewrite Hval.
  unfold Js.strict_eq in Hu.
  rewrite (Binary64.one_add_zero _ Hu), Binary64.mul_one_r, Hval. reflexivity.
Qed.

Lemma perturb_not_NaN (prev : MetalPrices) (k : nat) (m : string) :
  Js.isNaN (metalValue (perturb random prev k).1 m) = false.
Proof.
  unfold perturb.
  pose proof (fluctuate_not_NaN (gold24k prev) k) as H1.
  destruct (fluctuate random (gold24k prev) k) as [g24 k1].
  destruct (fluctuate random (gold22k prev) k1) as [g22 k2].
  destruct (fluctuate random (gold18k prev) k2) as [g18 k3].
  pose proof (fluctuate_not_NaN (silver prev) k3) as H4.
  destruct (fluctuate random (silver prev) k3) as [ag k4].
  pose proof (fluctuate_not_NaN (copper prev) k4) as H5.
  destruct (fluctuate random (copper prev) k4) as [cu k5].
  unfold metalValue. simpl in *.
  destruct (String.eqb m "gold"); [exact H1|].
  destruct (String.eqb m "silver"); assumption.
Qed.

(** One firing of the [forEach] body for a metal whose value is a number. *)
Lemma recordMetal_push (now : string) (updated : MetalPrices) (h : History)
    (m : string) (points : list PriceHistory) :
  Js.isNaN (metalValue updated m) = false ->
  h !! m = Some points ->
  recordMetal now updated (Js.Ok h) m =
    Js.Ok (<[m := slice_last 19 points ++ [{| time := now; value := metalValue updated m |}]]> h).
Proof.
  intros Hval Hm. unfold recordMetal. simpl. rewrite Hval. simpl. rewrite Hm. reflexivity.
Qed.

Lemma updateHistory_push (now : string) (updated : MetalPrices) (h : History)
    (L : string -> list PriceHistory) :
  (forall m, Js.isNaN (metalValue updated m) = false) ->
  keyed h L ->
  exists h',
    updateHistory now updated h = Js.Ok h' /\
    keyed h' (fun m => slice_last 19 (L m) ++ [{| time := now; value := metalValue updated m |}]).
Proof.
  intros Hval Hk. unfold keyed, metals in *.
  apply Forall_cons in Hk as [Hg Hk].
  apply Forall_cons in Hk as [Hs Hk].
  apply Forall_cons in Hk as [Hc _].
  unfold updateHistory, metals. cbn [foldl].
  rewrite (recordMetal_push _ _ _ _ _ (Hval _) Hg).
  rewrite (recordMetal_push _ _ _ "silver" (L "silver")); [|apply Hval|by simplify_map_eq].
  rewrite (recordMetal_push _ _ _ "copper" (L "copper")); [|apply Hval|by simplify_map_eq].
  eexists. split; [reflexivity|].
  repeat constructor; by simplify_map_eq.
Qed.


Lemma keyed_bounded (h : History) (L : string -> list PriceHistory) :
  (forall m, length (L m) <= 20) -> keyed h L -> bounded h.
Proof.
  intros HL Hk. eapply Forall_impl; [exact Hk|].
  intros m Hm. simpl in Hm. eauto.
Qed.

Lemma bounded_keyed (h : History) :
  bounded h -> keyed h (fun m => default [] (h !! m)).
Proof.
  intros Hb. eapply Forall_impl; [exact Hb|].
  intros m (pts & Hm & _). simpl. rewrite Hm. reflexivity.
Qed.

(** One tick of a loaded component: the prices are perturbed and one point
    per metal enters the history. *)
Lemma tick_push (now : string) (st : state) (base prev : MetalPrices)
    (L : string -> list PriceHistory) :
  basePrices st = Some base ->
  livePrices st = Some prev ->
  keyed (history st) L ->
  exists h',
    tick random now st =
      Js.Ok {| basePrices := Some base;
               livePrices := Some (perturb random prev (draws st)).1;
               history := h';
               draws := (perturb random prev (draws st)).2 |} /\
    keyed h' (fun m => slice_last 19 (L m) ++
                [{| time := now;
                    value := metalValue (perturb random prev (draws st)).1 m |}]).
Proof.
  intros Hb Hl Hk. unfold tick. rewrite Hb, Hl.
  pose proof (perturb_not_NaN prev (draws st)) as Hval.
  destruct (perturb random prev (draws st)) as [updated k] eqn:Hp.
  destruct (updateHistory_push now updated (history st) L Hval Hk) as (h' & Hu & Hk').
  exists h'. rewrite Hu. split; [reflexivity | exact Hk'].
Qed.

Lemma tick_inv (now : string) (st : state) :
  loaded_inv st -> exists st', tick random now st = Js.Ok st' /\ loaded_inv st'.
Proof.
  intros [Hb Hl].
  destruct (basePrices st) as [base|] eqn:Hbase.
  - destruct (livePrices st) as [prev|] eqn:Hlive.
    + destruct (tick_push now st base prev _ Hbase Hlive (bounded_keyed _ Hb))
        as (h' & Ht & Hk).
      eexists. split; [exact Ht|]. split; simpl; [|eauto].
      eapply keyed_bounded; [|exact Hk].
      intros m. simpl. rewrite length_app, length_slice_last. cbn [length]. lia.
    + exists st. unfold tick. rewrite Hbase, Hlive. split; [reflexivity|].
      split; [exact Hb|]. rewrite Hlive. intros [? [=]].
  - exists st. unfold tick. rewrite Hbase. split; [reflexivity|].
    split; [exact Hb|]. rewrite Hbase. exact Hl.
Qed.


Lemma run_cons (st : state) (ev : event) (evs : list event) :
  run random st (ev :: evs) =
    match step random st ev with
    | Js.Ok st' => run random st' evs
    | Js.Throw e => Js.Throw e
    end.
Proof.
  unfold run. cbn [foldl]. change (Js.Ok st ≫= _) with (step random st ev).
  destruct (step random st ev) as [st'|e]; [reflexivity|].
  induction evs as [|ev' evs IH]; [reflexivity|exact IH].
Qed.


Lemma mount_inv : loaded_inv mount.
Proof.
  split.
  - unfold bounded, metals, mount, initialHistory. simpl.
    repeat constructor; exists []; split; (by simplify_map_eq) || (simpl; lia).
  - simpl. intros [? [=]].
Qed.

End Ticker.


(** Draws of 0.25 and 0.75 move 100 down and up by a quarter of 0.1%. *)
Example fluctuate_saw :
  fluctuate saw 100 0 = (99.975000000000009, 1%nat) /\
  fluctuate saw 100 1 = (100.02500000000001, 2%nat) /\
  fluctuate saw Js.NaN 2 = (1000, 2%nat) /\
  fluctuate half Js.Infinity 0 = (Js.Infinity, 1%nat).
Proof. repeat split; reflexivity. Qed.

(** After a load and 25 ticks the gold history shows the ticks 6 to 25. *)
Example gold_history_after_25_ticks :
  (st ← run saw mount (Loaded sample :: map Tick clock25);
   mret (map time <$> history st !! "gold"%string))
  = Js.Ok (Some (drop 5 clock25)).
Proof. vm_compute. reflexivity. Qed.

(** Before any load the interval does not exist and ticks change nothing. *)
Example ticks_before_load :
  run saw mount (map Tick clock25) = Js.Ok mount.
Proof. vm_compute. reflexivity. Qed.

(** C7. With every perturbation draw equal to 0, the snapshot [updated]
    that one tick builds from a snapshot with five non-NaN price fields is
    that snapshot itself. *)
Theorem C7_zero_drift_tick_is_identity (random : nat -> Js.number)
    (prev : MetalPrices) (k : nat) :
  (forall j, Js.strict_eq (perturbation (random j)) 0 = true) ->
  Js.isNaN (gold24k prev) = false ->
  Js.isNaN (gold22k prev) = false ->
  Js.isNaN (gold18k prev) = false ->
  Js.isNaN (silver prev) = false ->
  Js.isNaN (copper prev) = false ->
  (perturb random prev k).1 = prev.
Proof.
  intros Hu H24 H22 H18 Hag Hcu. unfold perturb.
  rewrite (fluctuate_zero_drift random _ _ H24 (Hu _)).
  rewrite (fluctuate_zero_drift random _ _ H22 (Hu _)).
  rewrite (fluctuate_zero_drift random _ _ H18 (Hu _)).
  rewrite (fluctuate_zero_drift random _ _ Hag (Hu _)).
  rewrite (fluctuate_zero_drift random _ _ Hcu (Hu _)).
  destruct prev; reflexivity.
Qed.

Lemma C7_zero_drift_tick_is_identity_witness :
  Js.strict_eq (perturbation 0.5) 0 = true /\ (perturb half sample 0).1 = sample.
Proof.
  split; [reflexivity|].
  apply (C7_zero_drift_tick_is_identity half sample 0);
    [intros j; reflexivity | reflexivity ..].
Defined.

(** C8. [fluctuate] never returns NaN: it returns 1000 when the prior value
    is NaN, the prior value when the perturbed product is NaN, and the
    perturbed product otherwise, for every value and every draw. *)
Theorem C8_fluctuate_never_NaN (random : nat -> Js.number)
    (val : Js.number) (k : nat) :
  Js.isNaN (fluctuate random val k).1 = false /\
  (fluctuate random val k).1 =
    if Js.isNaN val then 1000
    else if Js.isNaN (val * (1 + perturbation (random k))) then val
    else val * (1 + perturbation (random k)).
Proof.
  split; [apply fluctuate_not_NaN|].
  unfold fluctuate. destruct (Js.isNaN val); reflexivity.
Qed.






End TickerProofs.

(** * More facts about binary64 arithmetic *)

Module Binary64Extra.
Import Binary64.

Lemma shr_1_nonneg (mrs : shr_record) :
  (0 <= shr_m mrs)%Z -> (0 <= shr_m (shr_1 mrs))%Z.
Proof.
  destruct mrs as [m r s]. cbn [shr_m]. intros H.
  destruct m as [|p|p]; [simpl; lia | destruct p; simpl; lia | lia].
Qed.

Lemma iter_pos_invariant {A} (P : A -> Prop) (f : A -> A) :
  (forall a, P a -> P (f a)) -> forall n a, P a -> P (SpecFloat.iter_pos f n a).
Proof.
  intros Hf. induction n as [n IH|n IH|]; intros a Ha; simpl; auto.
Qed.

Lemma shr_nonneg (mrs : shr_record) (e n : Z) :
  (0 <= shr_m mrs)%Z -> (0 <= shr_m (shr mrs e n).1)%Z.
Proof.
  intros H. unfold shr. destruct n; simpl; try exact H.
  apply (iter_pos_invariant (fun r => 0 <= shr_m r)%Z);
    [apply shr_1_nonneg | exact H].
Qed.

Lemma shr_record_of_loc_m (m : Z) (l : location) :
  shr_m (shr_record_of_loc m l) = m.
Proof. destruct l as [|[]]; reflexivity. Qed.

Lemma round_nearest_even_nonneg (m : Z) (l : location) :
  (0 <= m)%Z -> (0 <= round_nearest_even m l)%Z.
Proof.
  intros H. destruct l as [|[]]; simpl; try lia. destruct (Z.even m); lia.
Qed.

(** Rounding a positive mantissa gives a zero, a finite value or an
    infinity, never NaN. *)
Lemma binary_round_aux_not_nan (s : bool) (m : positive) (e : Z) (l : location) :
  binary_round_aux prec emax s (Z.pos m) e l <> S754_nan.
Proof.
  unfold binary_round_aux, shr_fexp.
  pose proof (shr_nonneg (shr_record_of_loc (Z.pos m) l) e
                (fexp prec emax (Zdigits2 (Z.pos m) + e) - e)) as H1.
  destruct (shr _ e _) as [mrs' e'] eqn:E1. simpl in H1.
  rewrite shr_record_of_loc_m in H1. specialize (H1 ltac:(lia)).
  set (m' := round_nearest_even (shr_m mrs') (loc_of_shr_record mrs')).
  assert (Hm' : (0 <= m')%Z) by (apply round_nearest_even_nonneg, H1).
  pose proof (shr_nonneg (shr_record_of_loc m' loc_Exact) e'
                (fexp prec emax (Zdigits2 m' + e') - e')) as H2.
  destruct (shr _ e' _) as [mrs'' e''] eqn:E2. simpl in H2.
  specialize (H2 Hm').
  destruct (shr_m mrs'') as [|p|p]; try discriminate; [|lia].
  destruct (e'' <=? emax - prec)%Z; discriminate.
Qed.

(** The product of two finite values is not NaN. *)
Lemma mul_finite_not_nan (x y : float) (sx sy : bool) (mx my : positive)
    (ex ey : Z) :
  Prim2SF x = S754_finite sx mx ex ->
  Prim2SF y = S754_finite sy my ey ->
  PrimFloat.is_nan (x * y) = false.
Proof.
  intros Hx Hy. rewrite is_nan_spec, mul_spec, Hx, Hy.
  unfold SF64mul, SFmul.
  pose proof (binary_round_aux_not_nan (xorb sx sy) (mx * my) (ex + ey) loc_Exact)
    as H.
  destruct (binary_round_aux _ _ _ _ _ _); congruence.
Qed.

(** A number strictly between two finite positive bounds is finite and
    positive. *)
Lemma between_finite (x lo hi : float) (ml mh : positive) (el eh : Z) :
  Prim2SF lo = S754_finite false ml el ->
  Prim2SF hi = S754_finite false mh eh ->
  (lo <? x) = true -> (x <? hi) = true ->
  exists m e, Prim2SF x = S754_finite false m e.
Proof.
  intros Hlo Hhi. rewrite !FloatAxioms.ltb_spec, Hlo, Hhi.
  destruct (Prim2SF x) as [s|s| |s m e]; try destruct s; try discriminate; eauto.
Qed.

(** A finite number minus itself is +0. *)
Lemma sub_diag_finite (x : float) (s : bool) (m : positive) (e : Z) :
  Prim2SF x = S754_finite s m e -> Prim2SF (x - x) = S754_zero false.
Proof.
  intros Hx. rewrite sub_spec, Hx. unfold SF64sub, SFsub.
  rewrite Z.sub_diag. reflexivity.
Qed.

(** There is one NaN. *)
Lemma is_nan_eq (x : float) : PrimFloat.is_nan x = true -> x = nan.
Proof.
  rewrite is_nan_spec. intros H.
  apply Prim2SF_inj. destruct (Prim2SF x); try discriminate. reflexivity.
Qed.

End Binary64Extra.

(** * More about the price aggregator *)

Module ServiceExtras.
Import Js metalService Scenarios MoreScenarios Dashboard ServiceProofs.

(** Reading a property succeeds exactly off values other than null and
    undefined. *)
Lemma get_prop_readable (v : value) (key : string) :
  (exists x, get_prop v key = Ok x) <-> v <> Null /\ v <> Undefined.
Proof.
  split.
  - intros [x H]. destruct v; simpl in H; try discriminate; split; discriminate.
  - intros [H1 H2]. destruct v; simpl; eauto; congruence.
Qed.

Section Aggregator.
Context (rt : runtime).

(** X1. The outer [try] completes exactly when both quotes were fetched,
    neither body is null or undefined, and both prices convert to a number
    without throwing; the copper query plays no part in it. *)
Theorem primaryPath_taken_iff (w : world) :
  (exists s, primaryPath rt w = Ok s) <->
  (exists goldData silverData goldPrice silverPrice goldNumber silverNumber,
     fetchFromGoldApi w "XAU" = Ok goldData /\
     fetchFromGoldApi w "XAG" = Ok silverData /\
     get_prop goldData "price" = Ok goldPrice /\
     get_prop silverData "price" = Ok silverPrice /\
     ToNumber rt goldPrice = Ok goldNumber /\
     ToNumber rt silverPrice = Ok silverNumber).
Proof.
  split.
  - intros [s H]. unfold primaryPath in H.
    destruct (fetchFromGoldApi w "XAU") as [gd|]; [|discriminate].
    destruct (fetchFromGoldApi w "XAG") as [sd|]; [|discriminate].
    simpl in H. exists gd, sd.
    destruct (get_prop gd "price") as [pg|] eqn:Hg; [|discriminate].
    simpl in H.
    destruct (ToNumber rt pg) as [ng|] eqn:Hgn; [|discriminate].
    simpl in H.
    destruct (get_prop sd "price") as [ps|] eqn:Hs; [|discriminate].
    simpl in H.
    destruct (ToNumber rt ps) as [ns|] eqn:Hsn; [|discriminate].
    exists pg, ps, ng, ns. repeat split; assumption.
  - intros (gd & sd & pg & ps & ng & ns & Hg & Hs & Hpg & Hps & Hng & Hns).
    destruct (primaryPath_quotes rt w _ _ _ _ _ _ Hg Hs Hpg Hps Hng Hns)
      as (c & _ & Hp).
    eauto.
Qed.

(** The copper estimate is a number. *)
Lemma copperEstimate_number (w : world) :
  exists c, copperEstimate rt w = Ok c /\ isNaN c = false.
Proof.
  unfold copperEstimate.
  destruct (generateContent w CopperQuery) as [text|e]; simpl.
  - destruct (isNaN (parseFloat rt (text_or text ""))) eqn:Hn; simpl;
      eexists; split; reflexivity || assumption.
  - eexists. split; reflexivity.
Qed.

(** X2. On the primary path the copper price is 945.25 whenever the copper
    query is rejected, answers without text or with empty text, or answers
    text that [parseFloat] does not read as a number. *)
Theorem copper_fallback_on_silence (w : world) (s : MetalPrices) :
  primaryPath rt w = Ok s ->
  isNaN (parseFloat rt "") = true ->
  (exists e, generateContent w CopperQuery = Throw e) \/
  generateContent w CopperQuery = Ok None \/
  generateContent w CopperQuery = Ok (Some ""%string) \/
  (exists text, generateContent w CopperQuery = Ok (Some text) /\
                isNaN (parseFloat rt text) = true) ->
  copper s = 945.25.
Proof.
  intros Hp Hempty Hsilent.
  assert (Hc : copperEstimate rt w = Ok 945.25).
  { unfold copperEstimate.
    destruct Hsilent as [[e H]|[H|[H|(text & H & Hn)]]]; rewrite H; simpl.
    - reflexivity.
    - rewrite Hempty. reflexivity.
    - rewrite Hempty. reflexivity.
    - destruct (String.eqb text ""); [rewrite Hempty | rewrite Hn]; reflexivity. }
  unfold primaryPath in Hp.
  destruct (Promise_all2 _ _) as [[goldData silverData]|]; simpl in Hp; [|discriminate].
  destruct (get_prop goldData "price") as [pg|]; simpl in Hp; [|discriminate].
  destruct (ToNumber rt pg); simpl in Hp; [|discriminate].
  destruct (get_prop silverData "price") as [ps|]; simpl in Hp; [|discriminate].
  destruct (ToNumber rt ps); simpl in Hp; [|discriminate].
  rewrite Hc in Hp. simpl in Hp. injection Hp as <-. reflexivity.
Qed.

(** The gated gold price is finite and positive. *)
Lemma gateGold_finite (g : number) :
  exists m e, Prim2SF (gateGold g) = S754_finite false m e.
Proof.
  unfold gateGold, gt, lt.
  destruct ((5000 <? g) && (g <? 12000)) eqn:Hband.
  - apply andb_prop in Hband as [Hlo Hhi].
    eapply (Binary64Extra.between_finite g 5000 12000); [| |exact Hlo|exact Hhi];
      vm_compute; reflexivity.
  - eexists _, _. vm_compute. reflexivity.
Qed.

Lemma alloy_not_NaN (g ratio : number) (m : positive) (e : Z) :
  Prim2SF ratio = S754_finite false m e ->
  isNaN (gateGold g * ratio) = false.
Proof.
  intros Hr. destruct (gateGold_finite g) as (mg & eg & Hg).
  exact (Binary64Extra.mul_finite_not_nan _ _ _ _ _ _ _ _ Hg Hr).
Qed.

(** X3. Whatever the two quotes hold, the [gold22k], [gold18k] and
    [copper] fields of a primary-path snapshot are not NaN. *)
Theorem primaryPath_derived_not_NaN (w : world) (s : MetalPrices) :
  primaryPath rt w = Ok s ->
  isNaN (gold22k s) = false /\ isNaN (gold18k s) = false /\ isNaN (copper s) = false.
Proof.
  unfold primaryPath.
  destruct (Promise_all2 _ _) as [[goldData silverData]|]; simpl; [|discriminate].
  destruct (get_prop goldData "price") as [pg|]; simpl; [|discriminate].
  destruct (ToNumber rt pg) as [ng|]; simpl; [|discriminate].
  destruct (get_prop silverData "price") as [ps|]; simpl; [|discriminate].
  destruct (ToNumber rt ps) as [ns|]; simpl; [|discriminate].
  destruct (copperEstimate_number w) as (c & Hc & Hcn). rewrite Hc. simpl.
  intros [= <-]. simpl. split; [|split; [|exact Hcn]].
  - eapply alloy_not_NaN. vm_compute. reflexivity.
  - eapply alloy_not_NaN. vm_compute. reflexivity.
Qed.

(** X4. When both quotes arrive but their price is not a number (a body
    without [price], say), the snapshot carries NaN in [gold24k] and
    [silver] next to alloy prices derived from 8250.50; [cleanData] then
    shows 8650 and 108500 beside those same alloy prices. *)
Theorem missing_price_reaches_snapshot (w : world)
    (goldData silverData goldPrice silverPrice : value)
    (goldNumber silverNumber : number) :
  fetchFromGoldApi w "XAU" = Ok goldData ->
  fetchFromGoldApi w "XAG" = Ok silverData ->
  get_prop goldData "price" = Ok goldPrice ->
  get_prop silverData "price" = Ok silverPrice ->
  ToNumber rt goldPrice = Ok goldNumber ->
  ToNumber rt silverPrice = Ok silverNumber ->
  isNaN goldNumber = true ->
  isNaN silverNumber = true ->
  exists s,
    fetchLiveMetalPrices rt w = Ok s /\
    isNaN (gold24k s) = true /\
    isNaN (silver s) = true /\
    gold22k s = 8250.50 * (22 / 24) /\
    gold18k s = 8250.50 * (18 / 24) /\
    gold24k (App.cleanData s) = 8650 /\
    silver (App.cleanData s) = 108500 /\
    gold22k (App.cleanData s) = 8250.50 * (22 / 24) /\
    gold18k (App.cleanData s) = 8250.50 * (18 / 24).
Proof.
  intros Hg Hs Hgp Hsp Hgc Hsc Hgn Hsn.
  destruct (primaryPath_quotes rt w _ _ _ _ _ _ Hg Hs Hgp Hsp Hgc Hsc)
    as (c & _ & Hp).
  pose proof (fetchLiveMetalPrices_tiers rt w) as Ht. rewrite Hp in Ht.
  eexists. split; [exact Ht|].
  unfold isNaN in Hgn, Hsn.
  rewrite (Binary64Extra.is_nan_eq _ Hgn), (Binary64Extra.is_nan_eq _ Hsn).
  repeat split; reflexivity.
Qed.

Lemma validate_positive (val : value) (fallback x : number) :
  isNaN fallback = false -> gt fallback 0 = true ->
  validate rt val fallback = Ok x ->
  isNaN x = false /\ gt x 0 = true.
Proof.
  intros Hn Hp. unfold validate.
  destruct (ToNumber rt val) as [num|] eqn:Hnum; simpl; [|discriminate].
  intros [= <-].
  destruct (isNaN num) eqn:Hnan; simpl; [split; assumption|].
  unfold le. rewrite (Binary64.leb_zero_ltb _ Hnan).
  destruct (0 <? num) eqn:Hgt; simpl; split; assumption.
Qed.

Lemma generativeFallback_positive (w : world) (s : MetalPrices) :
  generativeFallback rt w = Ok s -> allPositive s.
Proof.
  unfold generativeFallback.
  destruct (generateContent w SnapshotQuery) as [response|]; simpl; [|discriminate].
  destruct (JSON_parse rt _) as [data|]; simpl; [|discriminate].
  destruct (get_prop data "gold24k_per_gram") as [g24|]; simpl; [|discriminate].
  destruct (validate rt g24 8650) as [v24|] eqn:E24; simpl; [|discriminate].
  destruct (get_prop data "gold22k_per_gram") as [g22|]; simpl; [|discriminate].
  destruct (validate rt g22 7930) as [v22|] eqn:E22; simpl; [|discriminate].
  destruct (get_prop data "gold18k_per_gram") as [g18|]; simpl; [|discriminate].
  destruct (validate rt g18 6480) as [v18|] eqn:E18; simpl; [|discriminate].
  destruct (get_prop data "silver_per_kg") as [ag|]; simpl; [|discriminate].
  destruct (validate rt ag 108500) as [vag|] eqn:Eag; simpl; [|discriminate].
  destruct (get_prop data "copper_per_kg") as [cu|]; simpl; [|discriminate].
  destruct (validate rt cu 920) as [vcu|] eqn:Ecu; simpl; [|discriminate].
  destruct (get_prop data "last_updated_time"); simpl; [|discriminate].
  intros [= <-]. unfold allPositive. simpl.
  repeat (constructor;
          [eapply validate_positive; [| |eassumption]; reflexivity|]).
  constructor.
Qed.

Lemma staticFallback_positive (w : world) : allPositive (staticFallback w).
Proof. unfold allPositive. simpl. repeat constructor. Qed.

(** X5. When the adapter throws for either symbol, the aggregator still
    returns a snapshot, and each of its five prices is a number strictly
    greater than 0, whatever the generative model answered. *)
Theorem adapter_failure_positive_snapshot (w : world) (e : exn) :
  fetchFromGoldApi w "XAU" = Throw e \/ fetchFromGoldApi w "XAG" = Throw e ->
  exists s, fetchLiveMetalPrices rt w = Ok s /\ allPositive s.
Proof.
  intros Hfail.
  destruct (primaryPath_adapter_failure rt w e Hfail) as [e' Hp].
  pose proof (fetchLiveMetalPrices_tiers rt w) as Ht. rewrite Hp in Ht.
  destruct (generativeFallback rt w) as [s2|] eqn:H2.
  - exists s2. split; [exact Ht|]. apply (generativeFallback_positive w), H2.
  - eexists. split; [exact Ht|]. apply staticFallback_positive.
Qed.

(** X6. On the generative path, an answer from which no property can be
    read as anything but undefined (no text at all parsed as [{}], a JSON
    number, string or array, [null]) yields exactly the static snapshot. *)
Theorem unreadable_answer_is_static (w : world) (e : exn)
    (response : option string) (data : value) :
  primaryPath rt w = Throw e ->
  generateContent w SnapshotQuery = Ok response ->
  JSON_parse rt (text_or response "{}") = Some data ->
  (forall key v, get_prop data key = Ok v -> v = Undefined) ->
  fetchLiveMetalPrices rt w = Ok (staticFallback w).
Proof.
  intros Hp Hgen Hparse Hkeys.
  pose proof (fetchLiveMetalPrices_tiers rt w) as Ht. rewrite Hp in Ht.
  unfold generativeFallback in Ht. rewrite Hgen in Ht. simpl in Ht.
  rewrite Hparse in Ht. simpl in Ht.
  destruct (get_prop data "gold24k_per_gram") as [g24|] eqn:H24; simpl in Ht;
    [|exact Ht].
  assert (Hread : forall key, get_prop data key = Ok Undefined).
  { intros key. destruct (proj2 (get_prop_readable data key)) as [v Hv].
    - apply (get_prop_readable data "gold24k_per_gram"). eauto.
    - rewrite Hv. f_equal. eapply Hkeys, Hv. }
  rewrite Hread in H24. injection H24 as <-.
  rewrite !Hread in Ht. simpl in Ht. exact Ht.
Qed.

End Aggregator.

Lemma copper_fallback_on_silence_witness :
  exists s, primaryPath rt_none quietCopper = Ok s /\ copper s = 945.25.
Proof.
  eexists. split; [vm_compute; reflexivity|].
  apply (copper_fallback_on_silence rt_none quietCopper);
    [reflexivity | reflexivity | right; left; reflexivity].
Defined.

Lemma primaryPath_derived_not_NaN_witness :
  exists s,
    primaryPath rt_none priceless = Ok s /\
    isNaN (gold22k s) = false /\ isNaN (gold18k s) = false /\ isNaN (copper s) = false.
Proof.
  eexists. split; [vm_compute; reflexivity|].
  apply (primaryPath_derived_not_NaN rt_none priceless). reflexivity.
Defined.

Lemma missing_price_reaches_snapshot_witness :
  exists s,
    fetchLiveMetalPrices rt_none priceless = Ok s /\
    isNaN (gold24k s) = true /\
    isNaN (silver s) = true /\
    gold22k s = 8250.50 * (22 / 24) /\
    gold18k s = 8250.50 * (18 / 24) /\
    gold24k (App.cleanData s) = 8650 /\
    silver (App.cleanData s) = 108500 /\
    gold22k (App.cleanData s) = 8250.50 * (22 / 24) /\
    gold18k (App.cleanData s) = 8250.50 * (18 / 24).
Proof.
  apply (missing_price_reaches_snapshot rt_none priceless (Obj []) (Obj [])
           Undefined Undefined NaN NaN); reflexivity.
Defined.

Lemma adapter_failure_positive_snapshot_witness :
  exists s, fetchLiveMetalPrices rt_overflow overflow = Ok s /\ allPositive s.
Proof.
  apply (adapter_failure_positive_snapshot rt_overflow overflow TransportError).
  left. reflexivity.
Defined.

Lemma unreadable_answer_is_static_witness :
  fetchLiveMetalPrices rt_braces mute = Ok (staticFallback mute).
Proof.
  apply (unreadable_answer_is_static rt_braces mute TransportError None (Obj []));
    try reflexivity.
  intros key v. simpl. intros [= <-]. reflexivity.
Defined.

(** A silver price that cannot be converted demotes the aggregator although
    both quotes were fetched and gold is in band: with the model out of
    reach the snapshot is the static one. *)
Example unconvertible_price_demotes :
  fetchFromGoldApi poisonedSilver "XAU" = Ok (Obj [("price"%string, Num 279500)]) /\
  (exists e, primaryPath rt_poisoned poisonedSilver = Throw e) /\
  fetchLiveMetalPrices rt_poisoned poisonedSilver = Ok (staticFallback poisonedSilver).
Proof.
  split; [reflexivity|]. split; [eexists; vm_compute; reflexivity|].
  vm_compute. reflexivity.
Qed.

End ServiceExtras.

(** * The dashboard state, the trend and the tables *)

Module DashboardProofs.
Import metalService App Scenarios MoreScenarios Dashboard TickerProofs.

(** [cleanData] leaves no NaN behind. *)
Lemma cleanData_noNaN (data : MetalPrices) : noNaN (cleanData data).
Proof.
  unfold noNaN, cleanData. simpl.
  repeat split;
    match goal with |- Js.isNaN (if Js.isNaN ?x then _ else _) = false =>
      destruct (Js.isNaN x) eqn:H; [reflexivity | exact H] end.
Qed.

(** [cleanData] changes nothing in a snapshot without NaN. *)
Lemma cleanData_id (data : MetalPrices) : noNaN data -> cleanData data = data.
Proof.
  intros (H1 & H2 & H3 & H4 & H5). unfold cleanData.
  rewrite H1, H2, H3, H4, H5. destruct data; reflexivity.
Qed.

Section Ticker.
Context (random : nat -> Js.number).

(** A field that is a number costs one draw. *)
Lemma fluctuate_draw (val : Js.number) (k : nat) :
  Js.isNaN val = false -> (fluctuate random val k).2 = S k.
Proof. intros H. unfold fluctuate. rewrite H. reflexivity. Qed.

(** On a snapshot without NaN the five fields take five successive draws. *)
Lemma perturb_draws (prev : MetalPrices) (k : nat) :
  noNaN prev ->
  perturb random prev k =
    ({| gold24k := (fluctuate random (gold24k prev) k).1;
        gold22k := (fluctuate random (gold22k prev) (k + 1)).1;
        gold18k := (fluctuate random (gold18k prev) (k + 2)).1;
        silver := (fluctuate random (silver prev) (k + 3)).1;
        copper := (fluctuate random (copper prev) (k + 4)).1;
        lastUpdated := lastUpdated prev;
        currency := currency prev |}, (k + 5)%nat).
Proof.
  intros (H1 & H2 & H3 & H4 & H5). unfold perturb.
  pose proof (fluctuate_draw _ k H1) as E1.
  destruct (fluctuate random (gold24k prev) k) as [g24 k1]. simpl in E1. subst k1.
  replace (k + 1)%nat with (S k) by lia.
  pose proof (fluctuate_draw _ (S k) H2) as E2.
  destruct (fluctuate random (gold22k prev) (S k)) as [g22 k2]. simpl in E2. subst k2.
  replace (k + 2)%nat with (S (S k)) by lia.
  pose proof (fluctuate_draw _ (S (S k)) H3) as E3.
  destruct (fluctuate random (gold18k prev) (S (S k))) as [g18 k3]. simpl in E3. subst k3.
  replace (k + 3)%nat with (S (S (S k))) by lia.
  pose proof (fluctuate_draw _ (S (S (S k))) H4) as E4.
  destruct (fluctuate random (silver prev) (S (S (S k)))) as [ag k4]. simpl in E4. subst k4.
  replace (k + 4)%nat with (S (S (S (S k)))) by lia.
  pose proof (fluctuate_draw _ (S (S (S (S k)))) H5) as E5.
  destruct (fluctuate random (copper prev) (S (S (S (S k))))) as [cu k5]. simpl in E5. subst k5.
  simpl. do 2 f_equal. lia.
Qed.

(** A perturbed snapshot has no NaN and keeps timestamp and currency. *)
Lemma perturb_keeps (prev : MetalPrices) (k : nat) :
  noNaN (perturb random prev k).1 /\
  lastUpdated (perturb random prev k).1 = lastUpdated prev /\
  currency (perturb random prev k).1 = currency prev.
Proof.
  unfold perturb, noNaN.
  pose proof (fluctuate_not_NaN random (gold24k prev) k) as H1.
  destruct (fluctuate random (gold24k prev) k) as [g24 k1].
  pose proof (fluctuate_not_NaN random (gold22k prev) k1) as H2.
  destruct (fluctuate random (gold22k prev) k1) as [g22 k2].
  pose proof (fluctuate_not_NaN random (gold18k prev) k2) as H3.
  destruct (fluctuate random (gold18k prev) k2) as [g18 k3].
  pose proof (fluctuate_not_NaN random (silver prev) k3) as H4.
  destruct (fluctuate random (silver prev) k3) as [ag k4].
  pose proof (fluctuate_not_NaN random (copper prev) k4) as H5.
  destruct (fluctuate random (copper prev) k4) as [cu k5].
  simpl in *. auto 10.
Qed.

Lemma mount_ready : ready mount.
Proof. split; [apply mount_inv | exact I]. Qed.

Lemma tick_ready (now : string) (st : state) :
  ready st -> exists st', tick random now st = Js.Ok st' /\ ready st'.
Proof.
  intros [Hinv Hd].
  destruct (tick_inv random now st Hinv) as (st' & Ht & Hinv').
  exists st'. split; [exact Ht|]. split; [exact Hinv'|].
  unfold displayable in *. unfold tick in Ht.
  destruct (basePrices st) as [base|] eqn:Hb;
    destruct (livePrices st) as [prev|] eqn:Hl; try contradiction.
  - destruct (perturb_keeps prev (draws st)) as (Hn & Hlu & Hcur).
    destruct (perturb random prev (draws st)) as [updated k].
    destruct (updateHistory now updated (history st)); simpl in Ht; [|discriminate].
    injection Ht as <-. simpl in *.
    destruct Hd as (Hbn & _ & Hlu' & Hcur').
    split; [exact Hbn|]. split; [exact Hn|]. split; congruence.
  - injection Ht as <-. rewrite Hb, Hl. exact I.
Qed.

Lemma loaded_ready (data : MetalPrices) (st : state) :
  ready st -> exists st', step random st (Loaded data) = Js.Ok st' /\ ready st' /\
                          livePrices st' = Some (cleanData data).
Proof.
  intros [[Hb _] _]. eexists. split; [reflexivity|]. split; [|reflexivity].
  split.
  - split; simpl; [exact Hb | eauto].
  - unfold displayable. simpl. pose proof (cleanData_noNaN data). auto.
Qed.

Lemma step_ready (st : state) (ev : event) :
  ready st -> exists st', step random st ev = Js.Ok st' /\ ready st'.
Proof.
  intros H. destruct ev as [data|now].
  - destruct (loaded_ready data st H) as (st' & Hs & Hr & _). eauto.
  - apply tick_ready, H.
Qed.

Lemma run_ready (evs : list event) (st : state) :
  ready st -> exists st', run random st evs = Js.Ok st' /\ ready st'.
Proof.
  revert st. induction evs as [|ev evs IH]; intros st H.
  - exists st. split; [reflexivity | exact H].
  - rewrite run_cons. destruct (step_ready st ev H) as (st1 & Hs & H1).
    rewrite Hs. apply IH, H1.
Qed.

(** X7. In every state the component reaches from mount, whatever snapshots
    its loads delivered (NaN fields included) and however the ticks fell,
    base and live prices are set together, none of their price fields is
    NaN, and the live snapshot has the timestamp and currency of the base
    snapshot. *)
Theorem reachable_displayable (evs : list event) :
  exists st, run random mount evs = Js.Ok st /\ displayable st.
Proof.
  destruct (run_ready evs mount mount_ready) as (st & Hr & _ & Hd). eauto.
Qed.

(** X8. A tick of a loaded component calls [Math.random] exactly five times
    and perturbs the fields with successive draws, in the order gold24k,
    gold22k, gold18k, silver, copper. *)
Theorem tick_five_draws (evs : list event) (st : state) (prev : MetalPrices)
    (now : string) :
  run random mount evs = Js.Ok st ->
  livePrices st = Some prev ->
  exists st',
    tick random now st = Js.Ok st' /\
    draws st' = (draws st + 5)%nat /\
    livePrices st' =
      Some {| gold24k := (fluctuate random (gold24k prev) (draws st)).1;
              gold22k := (fluctuate random (gold22k prev) (draws st + 1)).1;
              gold18k := (fluctuate random (gold18k prev) (draws st + 2)).1;
              silver := (fluctuate random (silver prev) (draws st + 3)).1;
              copper := (fluctuate random (copper prev) (draws st + 4)).1;
              lastUpdated := lastUpdated prev;
              currency := currency prev |}.
Proof.
  intros Hrun Hprev.
  destruct (run_ready evs mount mount_ready) as (st0 & Hr & Hinv & Hd).
  rewrite Hrun in Hr. injection Hr as <-.
  unfold displayable in Hd. rewrite Hprev in Hd.
  destruct (basePrices st) as [base|] eqn:Hb; [|contradiction].
  destruct Hd as (_ & Hn & _).
  destruct (tick_push random now st base prev _ Hb Hprev
              (bounded_keyed _ (proj1 Hinv))) as (h' & Ht & _).
  rewrite (perturb_draws prev (draws st) Hn) in Ht.
  eexists. split; [exact Ht|]. split; reflexivity.
Qed.


(** X10. Before the first load has completed, interval firings leave the
    state as it was at mount: no price, no history point, no draw. *)
Theorem ticks_before_load_do_nothing (nows : list string) :
  run random mount (map Tick nows) = Js.Ok mount.
Proof.
  induction nows as [|now nows IH]; [reflexivity|].
  cbn [map]. rewrite run_cons. exact IH.
Qed.

End Ticker.

Section Session.
Context (rt : Js.runtime) (random : nat -> Js.number).

Lemma fetchLiveMetalPrices_INR (w : world) :
  exists s, fetchLiveMetalPrices rt w = Js.Ok s /\ currency s = "INR"%string.
Proof.
  pose proof (ServiceProofs.fetchLiveMetalPrices_tiers rt w) as Ht.
  destruct (primaryPath rt w) as [s1|] eqn:H1.
  - exists s1. split; [exact Ht|]. exact (ServiceProofs.primaryPath_currency rt w s1 H1).
  - destruct (generativeFallback rt w) as [s2|] eqn:H2.
    + exists s2. split; [exact Ht|].
      exact (ServiceProofs.generativeFallback_currency rt w s2 H2).
    + eexists. split; [exact Ht|]. reflexivity.
Qed.

Lemma act_ready (st : state) (a : action) :
  ready st -> priced_in_INR st ->
  exists st', act rt random st a = Js.Ok st' /\ ready st' /\ priced_in_INR st'.
Proof.
  intros Hr Hc. destruct a as [w|now]; simpl.
  - unfold loadPrices.
    destruct (fetchLiveMetalPrices_INR w) as (s & Hs & Hcur). rewrite Hs. simpl.
    destruct (loaded_ready random s st Hr) as (st' & Hst & Hr' & Hl).
    simpl in Hst. injection Hst as <-.
    eexists. split; [reflexivity|]. split; [exact Hr'|].
    intros live. simpl. intros [= <-]. exact Hcur.
  - destruct (tick_ready random now st Hr) as (st' & Ht & Hr').
    exists st'. split; [exact Ht|]. split; [exact Hr'|].
    intros live Hl.
    destruct Hr as [_ Hd], Hr' as [_ Hd'].
    unfold displayable in Hd, Hd'. unfold tick in Ht.
    destruct (basePrices st) as [base|] eqn:Hb;
      destruct (livePrices st) as [prev|] eqn:Hp; try contradiction.
    + destruct (perturb_keeps random prev (draws st)) as (_ & _ & Hcur).
      destruct (perturb random prev (draws st)) as [updated k].
      destruct (updateHistory now updated (history st)); simpl in Ht; [|discriminate].
      injection Ht as <-. simpl in Hl. injection Hl as <-.
      simpl in Hcur. rewrite Hcur. exact (Hc prev Hp).
    + injection Ht as <-. rewrite Hp in Hl. discriminate.
Qed.

Lemma session_cons (st : state) (a : action) (actions : list action) :
  session rt random st (a :: actions) =
    match act rt random st a with
    | Js.Ok st' => session rt random st' actions
    | Js.Throw e => Js.Throw e
    end.
Proof.
  unfold session. cbn [foldl]. change (Js.Ok st ≫= _) with (act rt random st a).
  destruct (act rt random st a) as [st'|e]; [reflexivity|].
  induction actions as [|a' actions IH]; [reflexivity|exact IH].
Qed.

(** X12. Through any session of refreshes (each completing in an arbitrary
    world) and ticks, no refresh or tick throws, the displayed prices are
    never NaN, and their currency is "INR". *)
Theorem session_never_shows_NaN (actions : list action) :
  exists st,
    session rt random mount actions = Js.Ok st /\
    displayable st /\
    priced_in_INR st.
Proof.
  assert (H : forall actions st, ready st -> priced_in_INR st ->
            exists st', session rt random st actions = Js.Ok st' /\
                        ready st' /\ priced_in_INR st').
  { clear actions. induction actions as [|a actions IH]; intros st Hr Hc.
    - exists st. split; [reflexivity|]. split; assumption.
    - rewrite session_cons.
      destruct (act_ready st a Hr Hc) as (st1 & Ha & Hr1 & Hc1).
      rewrite Ha. apply IH; assumption. }
  destruct (H actions mount mount_ready) as (st & Hs & [_ Hd] & Hc).
  - intros live. simpl. discriminate.
  - eauto.
Qed.
End Session.

(** X13. The session trend is zero (of either sign) whenever the watched
    live price equals its base price and that price is finite: right
    after a refresh in particular. *)
Theorem trend_zero_at_base (base live : MetalPrices) (activeTab : tab) :
  activeValue live activeTab = activeValue base activeTab ->
  Js.isFinite (activeValue base activeTab) = true ->
  Js.strict_eq (currentTrend (Some base) (Some live) activeTab) 0 = true.
Proof.
  intros Heq Hfin. unfold currentTrend. rewrite Heq.
  set (x := activeValue base activeTab) in *.
  destruct (Js.isNaN x || Js.isNaN x || Js.strict_eq x 0) eqn:Hg; [reflexivity|].
  unfold Js.isFinite in Hfin. rewrite classify_spec in Hfin.
  unfold Js.strict_eq. rewrite FloatAxioms.eqb_spec, mul_spec, div_spec.
  destruct (Prim2SF x) as [s|s| |s m e] eqn:Hx.
  - apply orb_false_elim in Hg as [_ Hz].
    unfold Js.strict_eq in Hz. rewrite FloatAxioms.eqb_spec, Hx in Hz.
    destruct s; discriminate.
  - destruct s; discriminate.
  - discriminate.
  - rewrite (Binary64Extra.sub_diag_finite x s m e Hx).
    destruct s; reflexivity.
Qed.

(** X14. The 1 gram row of the gold table and the 1 kilogram row of the
    silver and copper tables carry the unit prices unchanged. *)
Theorem unit_rows_show_unit_price (prices : MetalPrices) (price : Js.number) :
  goldTable prices !! 0%nat =
    Some {| weight := 1; amount24k := gold24k prices;
            amount22k := gold22k prices; amount18k := gold18k prices |} /\
  metalTable price !! 3%nat = Some (1, price).
Proof.
  unfold goldTable, metalTable, GOLD_WEIGHTS, METAL_WEIGHTS. simpl.
  rewrite !Binary64.mul_one_r. split; reflexivity.
Qed.
Lemma tick_five_draws_witness :
  exists st',
    tick saw "t01" loadedSample = Js.Ok st' /\
    draws st' = (draws loadedSample + 5)%nat /\
    livePrices st' =
      Some {| gold24k := (fluctuate saw (gold24k sample) (draws loadedSample)).1;
              gold22k := (fluctuate saw (gold22k sample) (draws loadedSample + 1)).1;
              gold18k := (fluctuate saw (gold18k sample) (draws loadedSample + 2)).1;
              silver := (fluctuate saw (silver sample) (draws loadedSample + 3)).1;
              copper := (fluctuate saw (copper sample) (draws loadedSample + 4)).1;
              lastUpdated := lastUpdated sample;
              currency := currency sample |}.
Proof.
  apply (tick_five_draws saw [Loaded sample] loadedSample sample "t01");
    reflexivity.
Defined.



Lemma trend_zero_at_base_witness :
  Js.strict_eq (currentTrend (Some sample) (Some sample) TabGold) 0 = true.
Proof.
  apply (trend_zero_at_base sample sample TabGold); reflexivity.
Defined.

(** The trend after one tick that moved gold by a quarter of 0.1% down. *)
Example trend_after_one_tick :
  match tick saw "t01" loadedSample with
  | Js.Ok st => currentTrend (basePrices st) (livePrices st) TabGold
  | Js.Throw _ => Js.NaN
  end = -0.025000000000004859.
Proof. vm_compute. reflexivity. Qed.

End DashboardProofs.

(** * The OAuth callback and the message listener *)

Module AuthProofs.
Import Js metalService authServer Scenarios MoreScenarios.

Section Callback.
Context (rt : runtime) (NumberToString : number -> string).
Context (cfg : config) (google : remote).

(** X15. The callback handler always answers and never throws: with 400
    exactly when [code] is missing or empty, and then without sending any
    request; otherwise with 200 or 500 after at most two requests. *)
Theorem callback_always_replies (query_code : value) :
  exists log r,
    callback rt NumberToString cfg google query_code [] = (log, Ok r) /\
    (status r = 400%nat <-> truthy query_code = false) /\
    (status r = 400%nat -> log = []) /\
    (status r = 200%nat \/ status r = 400%nat \/ status r = 500%nat) /\
    (length log <= 2)%nat.
Proof.
  unfold callback. destruct (truthy query_code) eqn:Hc; simpl.
  - unfold try_catch_io, mbind, io_bind, fetch_json, lift, mret, io_ret. simpl.
    destruct (token_endpoint google _) as [|ok1 st1 [tokens|e1]];
      try (eexists _, _; split; [reflexivity|]; simpl;
           repeat split; try discriminate; try lia; auto; fail).
    destruct (get_prop tokens "access_token") as [tok|];
      try (eexists _, _; split; [reflexivity|]; simpl;
           repeat split; try discriminate; try lia; auto; fail).
    destruct (ToString rt NumberToString tok) as [bearer|];
      try (eexists _, _; split; [reflexivity|]; simpl;
           repeat split; try discriminate; try lia; auto; fail).
    destruct (userinfo_endpoint google _) as [|ok2 st2 [userData|e2]];
      try (eexists _, _; split; [reflexivity|]; simpl;
           repeat split; try discriminate; try lia; auto; fail).
    destruct (get_prop userData "name") as [name|];
      try (eexists _, _; split; [reflexivity|]; simpl;
           repeat split; try discriminate; try lia; auto; fail).
    destruct (ToString rt NumberToString name);
      try (eexists _, _; split; [reflexivity|]; simpl;
           repeat split; try discriminate; try lia; auto; fail).
    destruct (get_prop userData "email") as [email|];
      try (eexists _, _; split; [reflexivity|]; simpl;
           repeat split; try discriminate; try lia; auto; fail).
    destruct (ToString rt NumberToString email);
      try (eexists _, _; split; [reflexivity|]; simpl;
           repeat split; try discriminate; try lia; auto; fail).
    destruct (get_prop userData "picture") as [picture|];
      try (eexists _, _; split; [reflexivity|]; simpl;
           repeat split; try discriminate; try lia; auto; fail).
    destruct (ToString rt NumberToString picture);
      eexists _, _; (split; [reflexivity|]); simpl;
      repeat split; try discriminate; try lia; auto.
  - eexists _, _. split; [reflexivity|]. simpl. repeat split; auto; lia.
Qed.

End Callback.


(** An [access_token] without a callable [toString] ends in 500 after the
    token request alone. *)
Example unconvertible_token :
  callback rt_poisoned (fun _ => ""%string) unconfigured poisonedToken
    (Str "4/0AX4XfWh") [] =
    ([TokenExchange {| code := Str "4/0AX4XfWh"; client_id := None;
                       client_secret := None;
                       redirect_uri := "http://localhost:3000/auth/google/callback";
                       grant_type := "authorization_code" |}],
     Ok {| status := 500; body := Text "Authentication failed" |}).
Proof. vm_compute. reflexivity. Qed.

(** Refused twice, the handler still greets a user named undefined. *)
Example refused_yet_successful :
  callback rt_none (fun _ => ""%string) unconfigured refusing (Str "4/0AX4XfWh") [] =
    ([TokenExchange {| code := Str "4/0AX4XfWh"; client_id := None;
                       client_secret := None;
                       redirect_uri := "http://localhost:3000/auth/google/callback";
                       grant_type := "authorization_code" |};
      UserInfo "Bearer undefined"],
     Ok {| status := 200;
           body := SuccessPage "undefined" "undefined" "undefined" |}).
Proof. vm_compute. reflexivity. Qed.

End AuthProofs.

Module AuthUiProofs.
Import Js AuthUi.

Lemma prefix_app (t b : string) : String.prefix t (t ++ b) = true.
Proof.
  induction t as [|c t IH]; simpl; [destruct b; reflexivity|].
  destruct (Ascii.ascii_dec c c); [exact IH | congruence].
Qed.

Lemma includes_prefix (s t : string) :
  String.prefix t s = true -> includes s t = true.
Proof. intros H. destruct s; cbn [includes]; rewrite H; reflexivity. Qed.

(** A string that has [t] in the middle includes [t]. *)
Lemma includes_app (a t b : string) : includes (a ++ t ++ b) t = true.
Proof.
  induction a as [|c a IH].
  - apply includes_prefix. exact (prefix_app t b).
  - simpl. rewrite IH. apply orb_true_r.
Qed.

(** X17. The listener accepts a message from any origin that contains
    "localhost" anywhere: such a message of type OAUTH_AUTH_SUCCESS
    replaces the signed-in user by whatever it carries and closes the sign-in
    dialog. *)
Theorem message_from_any_localhost_origin (a b : string) (profile : value)
    (st : authState) :
  handleMessage (a ++ "localhost" ++ b)
    (Obj [("type"%string, Str "OAUTH_AUTH_SUCCESS"); ("user"%string, profile)]) st
  = {| user := profile; showAuth := false |}.
Proof.
  unfold handleMessage. rewrite includes_app. rewrite andb_false_r. reflexivity.
Qed.

(** Origins as hosting and development produce them, and one that only
    mentions localhost. *)
Example origin_checks :
  endsWith "https://metal-live-1234.run.app" ".run.app" = true /\
  includes "http://localhost:3000" "localhost" = true /\
  includes "https://localhost.example.org" "localhost" = true /\
  endsWith "https://example.org" ".run.app" = false /\
  includes "https://example.org" "localhost" = false.
Proof. repeat split; reflexivity. Qed.

End AuthUiProofs.

(** * The chart data *)

Module ChartProofs.
Import metalService App Scenarios MoreScenarios Dashboard TickerProofs.

Lemma slice_last_Forall {A} (P : A -> Prop) (n : nat) (l : list A) :
  Forall P l -> Forall P (slice_last n l).
Proof. unfold slice_last. apply Forall_drop. Qed.

(** The guard of line 165 keeps NaN out, whatever [updated] holds. *)
Lemma recordMetal_chartable (now : string) (updated : MetalPrices)
    (h h' : History) (m : string) :
  chartable h -> recordMetal now updated (Js.Ok h) m = Js.Ok h' -> chartable h'.
Proof.
  intros Hc. unfold recordMetal. simpl.
  destruct (Js.isNaN (metalValue updated m)) eqn:Hval; simpl.
  - intros [= <-]. exact Hc.
  - destruct (h !! m) as [points|] eqn:Hm; [|discriminate].
    intros [= <-]. intros m' pts.
    destruct (decide (m = m')) as [<-|Hne].
    + rewrite lookup_insert_eq. intros [= <-].
      apply Forall_app. split.
      * apply slice_last_Forall, (Hc m), Hm.
      * repeat constructor. exact Hval.
    + rewrite lookup_insert_ne by exact Hne. apply Hc.
Qed.

Lemma updateHistory_chartable (now : string) (updated : MetalPrices)
    (h h' : History) :
  chartable h -> updateHistory now updated h = Js.Ok h' -> chartable h'.
Proof.
  unfold updateHistory, metals. cbn [foldl]. intros Hc.
  destruct (recordMetal now updated (Js.Ok h) "gold") as [h1|] eqn:E1;
    [|discriminate].
  destruct (recordMetal now updated (Js.Ok h1) "silver") as [h2|] eqn:E2;
    [|discriminate].
  intros E3.
  eapply recordMetal_chartable; [|exact E3].
  eapply recordMetal_chartable; [|exact E2].
  eapply recordMetal_chartable; [exact Hc|exact E1].
Qed.

Section Ticker.
Context (random : nat -> Js.number).

Lemma step_chartable (st st' : state) (ev : event) :
  chartable (history st) -> step random st ev = Js.Ok st' -> chartable (history st').
Proof.
  intros Hc. destruct ev as [data|now]; simpl.
  - intros [= <-]. exact Hc.
  - unfold tick. destruct (basePrices st); [|intros [= <-]; exact Hc].
    destruct (livePrices st) as [prev|]; [|intros [= <-]; exact Hc].
    destruct (perturb random prev (draws st)) as [updated k].
    destruct (updateHistory now updated (history st)) as [h|] eqn:Hu; simpl;
      [|discriminate].
    intros [= <-]. simpl. exact (updateHistory_chartable _ _ _ _ Hc Hu).
Qed.

(** X18. No point with a NaN value ever enters a history: in every state
    reached from mount, every point of every entry holds a number. *)
Theorem history_never_holds_NaN (evs : list event) (st : state) :
  run random mount evs = Js.Ok st -> chartable (history st).
Proof.
  assert (H : forall evs st0 st1, chartable (history st0) ->
            run random st0 evs = Js.Ok st1 -> chartable (history st1)).
  { clear evs st. induction evs as [|ev evs IH]; intros st0 st1 Hc.
    - intros [= <-]. exact Hc.
    - rewrite run_cons.
      destruct (step random st0 ev) as [st'|] eqn:Hs; [|discriminate].
      apply IH. exact (step_chartable st0 st' ev Hc Hs). }
  apply H. intros m pts. unfold mount, initialHistory. simpl.
  intros Hm.
  destruct (decide (m = "gold"%string)) as [->|Hg]; [simplify_map_eq; constructor|].
  destruct (decide (m = "silver"%string)) as [->|Hs]; [simplify_map_eq; constructor|].
  destruct (decide (m = "copper"%string)) as [->|Hcu]; [simplify_map_eq; constructor|].
  simplify_map_eq.
Qed.
End Ticker.

Lemma history_never_holds_NaN_witness :
  exists st,
    run saw mount (Loaded sample :: map Tick clock25) = Js.Ok st /\
    chartable (history st).
Proof.
  eexists. split; [vm_compute; reflexivity|].
  apply (history_never_holds_NaN saw (Loaded sample :: map Tick clock25)).
  vm_compute. reflexivity.
Defined.

End ChartProofs.
